(** * NYT_API.py: field extraction, required-field check and batch processing

    A shallow embedding of [NYTArticleExtractor] (src/NYT_API.py): the
    constructor, [extract_nested_field], [process_article] and
    [process_multiple_articles], together with the Python primitives they
    rely on (truthiness, [dict] access, [str.split], [str.join], attribute
    lookup, [try]/[except], [json.dumps]). *)

From Stdlib Require Import ZArith Ascii String List Bool Lia DecimalString.
From stdpp Require Import base option list strings gmap.

Local Open Scope Z_scope.
Local Open Scope nat_scope.

(** ** Python values *)

Module Py.

(** Values an article decoded from the API's JSON can hold.  Strings are
    sequences of code points below 256, numbers are integers, a [dict] keeps
    its insertion order and is read by first match. *)
Unset Elimination Schemes.
Inductive value : Type :=
| VNone
| VBool (b : bool)
| VInt (n : Z)
| VStr (s : string)
| VList (l : list value)
| VDict (d : list (string * value)).
Set Elimination Schemes.

Abbreviation dict := (list (string * value)).

(** Induction over the nesting of lists and dicts. *)
Fixpoint value_ind (P : value -> Prop)
    (HNone : P VNone)
    (HBool : forall b, P (VBool b))
    (HInt : forall n, P (VInt n))
    (HStr : forall s, P (VStr s))
    (HList : forall l, Forall P l -> P (VList l))
    (HDict : forall d, Forall (fun kv => P (snd kv)) d -> P (VDict d))
    (v : value) {struct v} : P v :=
  let rec := value_ind P HNone HBool HInt HStr HList HDict in
  match v with
  | VNone => HNone
  | VBool b => HBool b
  | VInt n => HInt n
  | VStr s => HStr s
  | VList l =>
      HList l ((fix go (l : list value) : Forall P l :=
                  match l with
                  | [] => @List.Forall_nil _ P
                  | x :: l' => @List.Forall_cons _ P x l' (rec x) (go l')
                  end) l)
  | VDict d =>
      HDict d ((fix go (d : dict) : Forall (fun kv => P (snd kv)) d :=
                  match d with
                  | [] => @List.Forall_nil _ _
                  | kv :: d' =>
                      @List.Forall_cons _ (fun kv => P (snd kv)) kv d' (rec (snd kv)) (go d')
                  end) d)
  end.

(** The exceptions the modelled code can raise.  [FieldMissingError] keeps the
    two operands its message interpolates:
    [f"Required field '{field}' is missing from article with id: {ident}"]. *)
Inductive exn : Type :=
| FieldMissingError (field : string) (ident : value)
| AttributeError (name : string)
| KeyError (key : string)
| TypeError.

Inductive result (A : Type) : Type :=
| Ok (a : A)
| Raise (e : exn).
Arguments Ok {A} a.
Arguments Raise {A} e.

Definition bind {A B} (m : result A) (k : A -> result B) : result B :=
  match m with
  | Ok a => k a
  | Raise e => Raise e
  end.

Notation "'let*' x ':=' m 'in' k" := (bind m (fun x => k))
  (at level 10, x pattern, m at level 100, k at level 200).

Definition returns {A} (m : result A) : Prop := exists a, m = Ok a.
Definition raises {A} (m : result A) : Prop := exists e, m = Raise e.

(** [bool(v)]. *)
Definition truthy (v : value) : bool :=
  match v with
  | VNone => false
  | VBool b => b
  | VInt n => negb (n =? 0)%Z
  | VStr s => negb (String.eqb s "")
  | VList l => match l with [] => false | _ => true end
  | VDict d => match d with [] => false | _ => true end
  end.

(** [isinstance(v, dict)] and [isinstance(v, (dict, list))]. *)
Definition is_dict (v : value) : bool :=
  match v with VDict _ => true | _ => false end.

Definition is_dict_or_list (v : value) : bool :=
  match v with VDict _ | VList _ => true | _ => false end.

(** [d.get(k)], [k in d], [d[k]], [d.get(k, default)], [d[k] = v]. *)
Fixpoint dict_lookup (k : string) (d : dict) : option value :=
  match d with
  | [] => None
  | (k', v) :: d' => if String.eqb k k' then Some v else dict_lookup k d'
  end.

Definition dict_contains (k : string) (d : dict) : bool :=
  match dict_lookup k d with Some _ => true | None => false end.

Definition dict_getitem (d : dict) (k : string) : result value :=
  match dict_lookup k d with
  | Some v => Ok v
  | None => Raise (KeyError k)
  end.

Definition dict_get (d : dict) (k : string) (default : value) : value :=
  match dict_lookup k d with
  | Some v => v
  | None => default
  end.

Fixpoint dict_setitem (k : string) (v : value) (d : dict) : dict :=
  match d with
  | [] => [(k, v)]
  | (k', v') :: d' =>
      if String.eqb k k' then (k', v) :: d' else (k', v') :: dict_setitem k v d'
  end.

Definition dict_keys (d : dict) : list string := List.map fst d.

(** [s.split(sep)] for a one-character separator. *)
Fixpoint split (sep : ascii) (s : string) : list string :=
  match s with
  | EmptyString => [EmptyString]
  | String c s' =>
      if Ascii.eqb c sep then EmptyString :: split sep s'
      else match split sep s' with
           | [] => [String c EmptyString]
           | h :: t => String c h :: t
           end
  end.

(** [sep.join(l)] for a list of values: [TypeError] unless every item is a
    [str]. *)
Fixpoint as_strs (l : list value) : result (list string) :=
  match l with
  | [] => Ok []
  | VStr s :: l' => let* r := as_strs l' in Ok (s :: r)
  | _ :: _ => Raise TypeError
  end.

Definition join (sep : string) (l : list value) : result string :=
  let* strs := as_strs l in Ok (String.concat sep strs).

(** [iter(v)]: the items a [for] loop or a comprehension visits. *)
Fixpoint chars (s : string) : list value :=
  match s with
  | EmptyString => []
  | String c s' => VStr (String c EmptyString) :: chars s'
  end.

Definition iter (v : value) : result (list value) :=
  match v with
  | VList l => Ok l
  | VDict d => Ok (List.map (fun kv => VStr (fst kv)) d)
  | VStr s => Ok (chars s)
  | VNone | VBool _ | VInt _ => Raise TypeError
  end.

(** [kw.get(k, default)] on an arbitrary value: only a [dict] has [get]. *)
Definition method_get (kw : value) (k : string) (default : value) : result value :=
  match kw with
  | VDict d => Ok (dict_get d k default)
  | _ => Raise (AttributeError "get")
  end.

End Py.

(** ** The [json] module: [dumps] with its default arguments *)

Module Json.
Import Py.

Definition dquote : ascii := ascii_of_nat 34.
Definition backslash : ascii := ascii_of_nat 92.

Definition hex_digit (n : nat) : ascii :=
  if n <? 10 then ascii_of_nat (48 + n) else ascii_of_nat (87 + n).

(** One character under [ensure_ascii=True]: the short escapes of
    [ESCAPE_DCT], the character itself from space to tilde, and
    [\uXXXX] (lower-case hexadecimal) otherwise. *)
Definition escape_char (c : ascii) : string :=
  let n := nat_of_ascii c in
  if n =? 34 then String backslash (String dquote EmptyString)
  else if n =? 92 then String backslash (String backslash EmptyString)
  else if n =? 10 then String backslash "n"
  else if n =? 13 then String backslash "r"
  else if n =? 9 then String backslash "t"
  else if n =? 8 then String backslash "b"
  else if n =? 12 then String backslash "f"
  else if (32 <=? n) && (n <=? 126) then String c EmptyString
  else String backslash
         ("u00" +:+ String (hex_digit (n / 16)) (String (hex_digit (n mod 16)) EmptyString)).

Fixpoint escape (s : string) : string :=
  match s with
  | EmptyString => EmptyString
  | String c s' => escape_char c +:+ escape s'
  end.

Definition encode_str (s : string) : string :=
  String dquote (escape s +:+ String dquote EmptyString).

Definition encode_int (n : Z) : string := NilZero.string_of_int (Z.to_int n).

(** [json.dumps(v)]: item separator [", "], key separator [": "]. *)
Fixpoint dumps (v : value) : string :=
  match v with
  | VNone => "null"
  | VBool true => "true"
  | VBool false => "false"
  | VInt n => encode_int n
  | VStr s => encode_str s
  | VList l => "[" +:+ String.concat ", " (List.map dumps l) +:+ "]"
  | VDict d =>
      "{" +:+ String.concat ", "
                (List.map (fun kv => encode_str (fst kv) +:+ ": " +:+ dumps (snd kv)) d)
          +:+ "}"
  end.

End Json.

(** ** The extractor *)

Module NYT.
Import Py.

(** Values held by the attributes of an extractor object. *)
Inductive attr : Type :=
| ANone
| AStr (s : string)
| AList (l : list string).

(** An object is its attribute dictionary; the class itself defines methods
    only, so [self.name] is a lookup here. *)
Abbreviation object := (gmap string attr).

Definition getattr (self : object) (name : string) : result attr :=
  match self !! name with
  | Some a => Ok a
  | None => Raise (AttributeError name)
  end.

Definition setattr (self : object) (name : string) (a : attr) : object :=
  <[name := a]> self.

Definition attr_truthy (a : attr) : bool :=
  match a with
  | ANone => false
  | AStr s => negb (String.eqb s "")
  | AList l => match l with [] => false | _ => true end
  end.

(** [a or b]. *)
Definition py_or (a b : attr) : attr := if attr_truthy a then a else b.

(** The names a [for field in a] loop visits. *)
Fixpoint char_names (s : string) : list string :=
  match s with
  | EmptyString => []
  | String c s' => String c EmptyString :: char_names s'
  end.

Definition attr_iter (a : attr) : result (list string) :=
  match a with
  | AList l => Ok l
  | AStr s => Ok (char_names s)
  | ANone => Raise TypeError
  end.

Definition default_base_url : string :=
  "https://api.nytimes.com/svc/search/v2/articlesearch.json".

Definition minimal_fields : list string := ["_id"; "headline"; "pub_date"].

Definition catalog : list string :=
  [ "_id"; "headline"; "byline"; "abstract"; "snippet"; "source"; "print_page";
    "multimedia"; "document_type"; "web_url";
    "pub_date"; "news_desk"; "section_name"; "subsection_name"; "type_of_material";
    "word_count"; "uri";
    "keywords"; "print_section" ].

(** [NYTArticleExtractor.__init__(self, api_key, base_url, fields = None)]:
    the four assignments, in order. *)
Definition __init__ (api_key base_url fields : attr) : object :=
  let self : object := ∅ in
  let self := setattr self "api_key" api_key in
  let self := setattr self "base_url" (py_or base_url (AStr default_base_url)) in
  let self := setattr self "fields" (py_or (AList minimal_fields) fields) in
  let self := setattr self "all_fields" (AList catalog) in
  self.

(** The body of the [for path in paths] loop of [extract_nested_field]; the
    [else] branch returns [None] from the function. *)
Fixpoint extract_loop (value : value) (paths : list string) : result Py.value :=
  match paths with
  | [] => Ok value
  | path :: paths' =>
      match value with
      | VDict d =>
          if dict_contains path d then
            let* value := dict_getitem d path in extract_loop value paths'
          else Ok VNone
      | _ => Ok VNone
      end
  end.

Definition extract_nested_field (self : object) (article : value) (field_path : string)
  : result value :=
  let paths := split "." field_path in
  extract_loop article paths.

(** [try: ... except (AttributeError, TypeError): handler]. *)
Definition try_except_attr_type {A} (body : result A) (handler : result A) : result A :=
  match body with
  | Raise (AttributeError _) | Raise TypeError => handler
  | other => other
  end.

(** [[kw.get('value', '') for kw in items]]. *)
Fixpoint keyword_values (items : list value) : result (list value) :=
  match items with
  | [] => Ok []
  | kw :: items' =>
      let* v := method_get kw "value" (VStr "") in
      let* vs := keyword_values items' in
      Ok (v :: vs)
  end.

(** Lines 154-160 of [process_article]: the value stored under ['keywords']. *)
Definition extract_keywords (article : dict) : result value :=
  let* present :=
    if dict_contains "keywords" article then
      let* kws := dict_getitem article "keywords" in Ok (truthy kws)
    else Ok false in
  if (present : bool) then
    try_except_attr_type
      (let* kws := dict_getitem article "keywords" in
       let* items := iter kws in
       let* vs := keyword_values items in
       let* joined := join "," vs in
       Ok (VStr joined))
      (Ok (VStr ""))
  else Ok (VStr "").

Definition skipped_fields : list string := ["headline"; "byline"; "multimedia"; "keywords"].

Definition in_list (x : string) (l : list string) : bool :=
  existsb (String.eqb x) l.

(** Lines 162-170: the [for field in self.all_fields] loop. *)
Fixpoint copy_fields (fields : list string) (article processed : dict) : result dict :=
  match fields with
  | [] => Ok processed
  | field :: fields' =>
      if negb (in_list field skipped_fields) then
        if dict_contains field article then
          let* v := dict_getitem article field in
          if is_dict_or_list v then
            copy_fields fields' article (dict_setitem field (VStr (Json.dumps v)) processed)
          else
            let* v := dict_getitem article field in
            copy_fields fields' article (dict_setitem field v processed)
        else copy_fields fields' article (dict_setitem field VNone processed)
      else copy_fields fields' article processed
  end.

(** Lines 144-170: everything [process_article] stores in [processed] before
    the required-field loop. *)
Definition extract_fields (self : object) (article : dict) : result dict :=
  let processed : dict := [] in
  let* v := extract_nested_field self (VDict article) "headline.main" in
  let processed := dict_setitem "headline" v processed in
  let* v := extract_nested_field self (VDict article) "headline.kicker" in
  let processed := dict_setitem "headline_kicker" v processed in
  let* v := extract_nested_field self (VDict article) "headline.print_headline" in
  let processed := dict_setitem "headline_print" v processed in
  let* v := extract_nested_field self (VDict article) "byline.original" in
  let processed := dict_setitem "byline" v processed in
  let* v := extract_nested_field self (VDict article) "multimedia.default.url" in
  let processed := dict_setitem "image_url" v processed in
  let* v := extract_keywords article in
  let processed := dict_setitem "keywords" v processed in
  let* all_fields := getattr self "all_fields" in
  let* fields := attr_iter all_fields in
  copy_fields fields article processed.

Definition is_none (v : value) : bool :=
  match v with VNone => true | _ => false end.

(** Lines 172-174: the [for field in self.required_fields] loop. *)
Fixpoint check_required (fields : list string) (article processed : dict) : result unit :=
  match fields with
  | [] => Ok tt
  | field :: fields' =>
      let* missing :=
        if dict_contains field processed then
          let* v := dict_getitem processed field in Ok (is_none v)
        else Ok false in
      if (missing : bool) then
        Raise (FieldMissingError field (dict_get article "_id" (VStr "unknown")))
      else check_required fields' article processed
  end.

Definition process_article (self : object) (article : dict) : result dict :=
  let* processed := extract_fields self article in
  let* required_fields := getattr self "required_fields" in
  let* fields := attr_iter required_fields in
  let* _ := check_required fields article processed in
  Ok processed.

(** What [logging] receives from [process_multiple_articles]; an entry keeps
    the operands its message interpolates. *)
Inductive log_record : Type :=
| ErrorSkipping (number : nat) (e : exn)
| ErrorProcessing (number : nat) (e : exn)
| InfoProcessed (successes errors : nat).

(** The locals of [process_multiple_articles], with the log written so far. *)
Record batch_state : Type := BatchState {
  processed_articles : list dict;
  errors : nat;
  log : list log_record
}.

Definition append_processed (processed : dict) (st : batch_state) : batch_state :=
  {| processed_articles := processed_articles st ++ [processed];
     errors := errors st; log := log st |}.

Definition count_error (st : batch_state) : batch_state :=
  {| processed_articles := processed_articles st;
     errors := errors st + 1; log := log st |}.

Definition logging (r : log_record) (st : batch_state) : batch_state :=
  {| processed_articles := processed_articles st;
     errors := errors st; log := log st ++ [r] |}.

(** The [for i, article in enumerate(articles)] loop with its two handlers;
    [Some e] is an exception leaving the loop. *)
Fixpoint batch_loop (self : object) (strict_mode : bool) (i : nat) (articles : list dict)
    (st : batch_state) : batch_state * option exn :=
  match articles with
  | [] => (st, None)
  | article :: articles' =>
      match process_article self article with
      | Ok processed =>
          batch_loop self strict_mode (S i) articles' (append_processed processed st)
      | Raise (FieldMissingError f ident as e) =>
          let st := count_error st in
          if strict_mode then (st, Some e)
          else batch_loop self strict_mode (S i) articles'
                 (logging (ErrorSkipping (i + 1) e) st)
      | Raise e =>
          let st := count_error st in
          let st := logging (ErrorProcessing (i + 1) e) st in
          if strict_mode then (st, Some e)
          else batch_loop self strict_mode (S i) articles' st
      end
  end.

Definition initial_state : batch_state :=
  {| processed_articles := []; errors := 0; log := [] |}.

(** [process_multiple_articles(self, articles, strict_mode = False)]: the log
    it writes and what the caller gets, a list or an exception. *)
Definition process_multiple_articles (self : object) (articles : list dict)
    (strict_mode : bool) : list log_record * result (list dict) :=
  match batch_loop self strict_mode 0 articles initial_state with
  | (st, Some e) => (log st, Raise e)
  | (st, None) =>
      let st := logging (InfoProcessed (length (processed_articles st)) (errors st)) st in
      (log st, Ok (processed_articles st))
  end.

End NYT.

(** ** The specification's reading of the operations *)

Module Spec.
Import Py.

(** Dotted-path resolution: walk the segments through nested mappings; where
    the current value is not a mapping or lacks the key, the result is null. *)
Fixpoint resolve (v : value) (segments : list string) : value :=
  match segments with
  | [] => v
  | seg :: rest =>
      match v with
      | VDict d =>
          match dict_lookup seg d with
          | Some v' => resolve v' rest
          | None => VNone
          end
      | _ => VNone
      end
  end.

(** The text one keyword element contributes: its ['value'] sub-field, the
    empty string when the sub-field is missing; [None] for an element of
    unexpected shape (not a mapping, or a sub-field that is not a string). *)
Definition keyword_text (kw : value) : option string :=
  match kw with
  | VDict d =>
      match dict_lookup "value" d with
      | None => Some ""
      | Some (VStr s) => Some s
      | Some _ => None
      end
  | _ => None
  end.

Fixpoint keyword_texts (kws : list value) : option (list string) :=
  match kws with
  | [] => Some []
  | kw :: kws' =>
      match keyword_text kw, keyword_texts kws' with
      | Some s, Some ss => Some (s :: ss)
      | _, _ => None
      end
  end.

(** The aggregated keywords field: the comma-separated texts of a non-empty
    sequence of well-shaped elements, the empty string in every other case. *)
Definition keywords_string (article : dict) : string :=
  match dict_lookup "keywords" article with
  | Some (VList (kw :: kws)) =>
      match keyword_texts (kw :: kws) with
      | Some texts => String.concat "," texts
      | None => ""
      end
  | _ => ""
  end.

(** The field names of a flat record, in the order [process_article] first
    assigns them. *)
Definition flat_fields : list string :=
  [ "headline"; "headline_kicker"; "headline_print"; "byline"; "image_url"; "keywords";
    "_id"; "abstract"; "snippet"; "source"; "print_page"; "document_type"; "web_url";
    "pub_date"; "news_desk"; "section_name"; "subsection_name"; "type_of_material";
    "word_count"; "uri"; "print_section" ].

(** The catalog fields that are copied or serialised rather than extracted by
    a dedicated rule. *)
Definition copied_fields : list string :=
  [ "_id"; "abstract"; "snippet"; "source"; "print_page"; "document_type"; "web_url";
    "pub_date"; "news_desk"; "section_name"; "subsection_name"; "type_of_material";
    "word_count"; "uri"; "print_section" ].

(** What a copied field holds: the raw value, its JSON text when the raw value
    is a mapping or a sequence, null when the record lacks the field. *)
Definition copied_value (article : dict) (field : string) : value :=
  match dict_lookup field article with
  | Some v => if is_dict_or_list v then VStr (Json.dumps v) else v
  | None => VNone
  end.

Definition copy_step (article processed : dict) (field : string) : dict :=
  if NYT.in_list field NYT.skipped_fields then processed
  else dict_setitem field (copied_value article field) processed.

(** The keys of a dict after [d[k] = v]. *)
Fixpoint add_key (k : string) (ks : list string) : list string :=
  match ks with
  | [] => [k]
  | k' :: ks' => if String.eqb k k' then k' :: ks' else k' :: add_key k ks'
  end.

Definition key_step (ks : list string) (field : string) : list string :=
  if NYT.in_list field NYT.skipped_fields then ks else add_key field ks.

(** The six entries lines 146-160 store, before the catalog loop. *)
Definition extracted (article : dict) : dict :=
  [ ("headline", resolve (VDict article) ["headline"; "main"]);
    ("headline_kicker", resolve (VDict article) ["headline"; "kicker"]);
    ("headline_print", resolve (VDict article) ["headline"; "print_headline"]);
    ("byline", resolve (VDict article) ["byline"; "original"]);
    ("image_url", resolve (VDict article) ["multimedia"; "default"; "url"]);
    ("keywords", VStr (keywords_string article)) ].

(** An exception the handler of the keywords block catches. *)
Definition caught {A} (r : result A) : Prop :=
  r = Raise TypeError \/ exists name, r = Raise (AttributeError name).

(** The flat record of an article that normalises, the exception of one that
    does not. *)
Definition success (self : NYT.object) (article : dict) : option dict :=
  match NYT.process_article self article with
  | Ok processed => Some processed
  | Raise _ => None
  end.

Definition failure (self : NYT.object) (article : dict) : option exn :=
  match NYT.process_article self article with
  | Ok _ => None
  | Raise e => Some e
  end.

(** An extractor whose field catalog is the one the constructor assigns. *)
Definition has_catalog (self : NYT.object) : Prop :=
  self !! "all_fields" = Some (NYT.AList NYT.catalog).

End Spec.

(** ** Sample records *)

Module Examples.
Import Py NYT.

(** A constructed extractor on which a caller has then set
    [required_fields] by hand. *)
Definition extractor : object :=
  setattr (__init__ (AStr "key") ANone ANone) "required_fields" (AList ["headline"]).

Definition r1 : dict :=
  [ ("_id", VStr "nyt://article/1");
    ("headline", VDict [("main", VStr "X"); ("kicker", VNone)]);
    ("keywords", VList [VDict [("name", VStr "subject"); ("value", VStr "a")];
                        VDict [("value", VStr "b")]]);
    ("multimedia", VList [VDict [("url", VStr "images/1.jpg")]]);
    ("source", VDict [("name", VStr "The New York Times"); ("ids", VList [VInt 1; VInt (-2)])]);
    ("word_count", VInt 812) ].

(** A record without headline data. *)
Definition r2 : dict := [ ("_id", VStr "nyt://article/2"); ("abstract", VStr "...") ].

Definition r3 : dict :=
  [ ("_id", VStr "nyt://article/3"); ("headline", VDict [("main", VStr "Z")]) ].

End Examples.

(** ** Retrieval and export *)

Module Search.
Import Py NYT.

(** What can be raised inside [search_articles]: the exceptions of the
    modelled primitives, the read of a local that holds no value yet, and a
    failure of the HTTP collaborator ([requests.get], [raise_for_status],
    [response.json]). *)
Inductive error : Type :=
| PyError (e : exn)
| UnboundLocalError (name : string)
| RequestError (status : nat).

Inductive outcome (A : Type) : Type :=
| Done (a : A)
| Failed (e : error).
Arguments Done {A} a.
Arguments Failed {A} e.

(** What the function does to the outside, in order: its [logging.info]
    lines, the requests it sends, its pauses and what it prints. *)
Inductive event : Type :=
| InfoFetching (results pages_needed : Z)
| InfoNoMore (page : Z)
| InfoRetrieved (count : nat) (page : Z)
| InfoTotal (count : nat) (query : value)
| Request (url : attr) (params : dict)
| Sleep (seconds : nat)
| PrintError (e : error).

Record state : Type := State {
  all_articles : list value;
  trace : list event
}.

(** Statements that read and write the locals and the trace, and may
    raise. *)
Definition M (A : Type) : Type := state -> state * outcome A.

Definition ret {A} (a : A) : M A := fun st => (st, Done a).

Definition raise {A} (e : error) : M A := fun st => (st, Failed e).

Definition bind {A B} (m : M A) (k : A -> M B) : M B :=
  fun st =>
    match m st with
    | (st', Done a) => k a st'
    | (st', Failed e) => (st', Failed e)
    end.

Notation "'let!' x ':=' m 'in' k" := (bind m (fun x => k))
  (at level 10, x pattern, m at level 100, k at level 200).

Definition lift {A} (r : result A) : M A :=
  match r with
  | Ok a => ret a
  | Raise e => raise (PyError e)
  end.

Definition emit (e : event) : M unit :=
  fun st => ({| all_articles := all_articles st; trace := trace st ++ [e] |}, Done tt).

Definition get_all : M (list value) := fun st => (st, Done (all_articles st)).

Definition set_all (l : list value) : M unit :=
  fun st => ({| all_articles := l; trace := trace st |}, Done tt).

(** Reading a local variable of the function. *)
Definition read_local (name : string) (x : option Z) : M Z :=
  match x with
  | Some z => ret z
  | None => raise (UnboundLocalError name)
  end.

(** [v[k]] for a string key: only a [dict] can be indexed by one. *)
Definition subscript (v : value) (k : string) : M value :=
  match v with
  | VDict d => lift (dict_getitem d k)
  | _ => raise (PyError TypeError)
  end.

(** An attribute value as an article-like value. *)
Definition attr_value (a : attr) : value :=
  match a with
  | ANone => VNone
  | AStr s => VStr s
  | AList l => VList (List.map VStr l)
  end.

(** [l[:n]]. *)
Definition slice_to (n : Z) (l : list value) : list value :=
  if (0 <=? n)%Z then take (Z.to_nat n) l
  else take (length l - Z.to_nat (- n)) l.

(** [range(a, b)]. *)
Definition range (a b : Z) : list Z :=
  List.map (fun i => (a + Z.of_nat i)%Z) (seq 0 (Z.to_nat (b - a))).

(** [(results + 9) // 10], then [min(pages_needed, 100)]. *)
Definition pages_needed (results : Z) : Z :=
  let pages_needed := ((results + 9) / 10)%Z in
  Z.min pages_needed 100.

Inductive flow : Type := Continue | Break.

Section WithHttp.

(** The decoded body of the response to a request, or its failure. *)
Variable http : attr -> dict -> outcome value.

Variable self : object.
Variables query begin_date end_date : value.
Variable results : Z.

(** One round of the [for page in ...] loop, lines 68-98. *)
Definition body (page : Z) : M flow :=
  let! api_key := lift (getattr self "api_key") in
  let params : dict :=
    [("api-key", attr_value api_key); ("q", query); ("page", VInt page)] in
  let params :=
    if truthy begin_date then dict_setitem "begin_date" begin_date params else params in
  let params :=
    if truthy end_date then dict_setitem "end_date" end_date params else params in
  let! base_url := lift (getattr self "base_url") in
  let! _ := emit (Request base_url params) in
  let! data := (fun st => (st, http base_url params)) in
  let! response := subscript data "response" in
  let! articles := subscript response "docs" in
  if negb (truthy articles) then
    let! _ := emit (InfoNoMore page) in
    ret Break
  else
    let! items := lift (iter articles) in
    let! all := get_all in
    let! _ := set_all (all ++ items) in
    let! _ := emit (InfoRetrieved (length items) page) in
    let! all := get_all in
    if (results <=? Z.of_nat (length all))%Z then
      let! _ := set_all (slice_to results all) in
      ret Break
    else if (page <? page + pages_needed results - 1)%Z then
      let! _ := emit (Sleep 12) in
      ret Continue
    else ret Continue.

Fixpoint loop (pages : list Z) : M unit :=
  match pages with
  | [] => ret tt
  | page :: pages' =>
      let! f := body page in
      match f with
      | Break => ret tt
      | Continue => loop pages'
      end
  end.

(** [search_articles(self, query, begin_date, end_date, results = 10,
    start_page = 0)]: the trace it leaves and the list it returns.  The local
    [page] is the target of the [for] statement and holds no value when
    [range(page, pages_needed)] is evaluated; [start_page] is not read. *)
Definition search_articles (start_page : Z) : list event * list value :=
  let page : option Z := None in
  let try_block : M unit :=
    let! _ := set_all [] in
    let! _ := emit (InfoFetching results (pages_needed results)) in
    let! first := read_local "page" page in
    let! _ := loop (range first (pages_needed results)) in
    let! all := get_all in
    emit (InfoTotal (length all) query) in
  match try_block {| all_articles := []; trace := [] |} with
  | (st, Done _) => (trace st, all_articles st)
  | (st, Failed e) => (trace st ++ [PrintError e], [])
  end.

End WithHttp.

End Search.

Module Csv.
Import Py NYT.

(** What [save_to_csv] logs. *)
Inductive event : Type :=
| WarningNoArticles
| InfoSaved (count : nat) (filename : string)
| ErrorSaving (e : Search.error).

Section WithDisk.

(** The files on disk.  [logging.basicConfig(filename = 'nyt_extraction.log')]
    makes every logged line a write to the log file, [write_log]; and
    [pd.DataFrame(articles).to_csv(filename, index = False, encoding =
    'utf-8')] is the change it makes to the disk and whether it failed. *)
Variable disk : Type.
Variable write_log : event -> disk -> disk.
Variable to_csv : list dict -> string -> disk -> disk * Search.outcome unit.

(** [save_to_csv(self, articles, filename = 'nyt_articles.csv')]: the disk
    afterwards, and whether it returned or raised. *)
Definition save_to_csv (self : object) (articles : list dict) (filename : string)
    (d : disk) : disk * Search.outcome unit :=
  match articles with
  | [] => (write_log WarningNoArticles d, Search.Done tt)
  | _ :: _ =>
      match to_csv articles filename d with
      | (d', Search.Done _) =>
          (write_log (InfoSaved (length articles) filename) d', Search.Done tt)
      | (d', Search.Failed e) => (write_log (ErrorSaving e) d', Search.Failed e)
      end
  end.

End WithDisk.

End Csv.

(** ** Vocabulary of the further properties *)

Module Terms.
Import Py NYT.

(** [c in s]. *)
Fixpoint has_char (c : ascii) (s : string) : bool :=
  match s with
  | EmptyString => false
  | String x s' => Ascii.eqb x c || has_char c s'
  end.

(** The line the lenient loop logs for the article numbered [number], given
    how its normalisation ended. *)
Definition log_entry (number : nat) (r : result dict) : option log_record :=
  match r with
  | Ok _ => None
  | Raise (FieldMissingError f ident) =>
      Some (ErrorSkipping number (FieldMissingError f ident))
  | Raise e => Some (ErrorProcessing number e)
  end.

(** What strict mode has logged when it re-raises [e] for the article
    numbered [number]. *)
Definition abort_log (number : nat) (e : exn) : list log_record :=
  match e with
  | FieldMissingError _ _ => []
  | _ => [ErrorProcessing number e]
  end.

(** The first case of the keywords rule read without a condition on the
    sub-fields: the comma-separated ['value'] sub-fields of the elements, a
    missing one counting as the empty string, with [text] giving the
    characters of a sub-field. *)
Definition joined_values (text : value -> string) (kws : list value) : string :=
  String.concat ","
    (List.map (fun kw => match kw with
                         | VDict d => text (dict_get d "value" (VStr ""))
                         | _ => EmptyString
                         end) kws).

(** Keyword elements that are all mappings, one with a number as its
    ['value'], and a record holding them. *)
Definition mixed_keywords : list value :=
  [VDict [("value", VStr "a")]; VDict [("value", VInt 5)]].

Definition mixed_record : dict :=
  [ ("_id", VStr "nyt://article/4");
    ("headline", VDict [("main", VStr "W")]);
    ("keywords", VList mixed_keywords) ].

(** The lines lenient mode logs for the articles that do not normalise: one
    per such article, in input order, numbered from 1 by position. *)
Definition failure_lines (self : object) (articles : list dict) : list log_record :=
  omap id (imap (fun i a => log_entry (i + 1) (process_article self a)) articles).

Definition is_request (e : Search.event) : bool :=
  match e with
  | Search.Request _ _ => true
  | _ => false
  end.

End Terms.

(** ** Facts about the Python primitives *)

Section PyFacts.
Import Py.

Lemma bind_ok {A B} (m : result A) (k : A -> result B) (b : B) :
  bind m k = Ok b -> exists a, m = Ok a /\ k a = Ok b.
Proof. destruct m as [a|e]; simpl; [eauto | discriminate]. Qed.

Lemma dict_contains_lookup k d :
  dict_contains k d = true <-> exists v, dict_lookup k d = Some v.
Proof.
  unfold dict_contains. destruct (dict_lookup k d) as [v|].
  - split; eauto.
  - split; [discriminate | intros [v Hv]; discriminate].
Qed.

Lemma dict_lookup_setitem_eq k v d :
  dict_lookup k (dict_setitem k v d) = Some v.
Proof.
  induction d as [|[k' v'] d IH]; simpl.
  - by rewrite String.eqb_refl.
  - destruct (String.eqb k k') eqn:E; simpl; rewrite E; [done | exact IH].
Qed.

Lemma dict_lookup_setitem_ne k k' v d :
  k <> k' -> dict_lookup k' (dict_setitem k v d) = dict_lookup k' d.
Proof.
  intros Hne. induction d as [|[k0 v0] d IH]; simpl.
  - destruct (String.eqb k' k) eqn:E; [|done].
    apply String.eqb_eq in E. congruence.
  - destruct (String.eqb k k0) eqn:E; simpl.
    + apply String.eqb_eq in E. subst k0.
      destruct (String.eqb k' k) eqn:E'; [|done].
      apply String.eqb_eq in E'. congruence.
    + by rewrite IH.
Qed.

Lemma split_nonempty sep s : split sep s <> [].
Proof.
  destruct s as [|c s]; simpl; [done|].
  destruct (Ascii.eqb c sep); [done|]. by destruct (split sep s).
Qed.

(** [split] cuts at the separators and nowhere else: joining the segments
    with the separator gives the string back. *)
Lemma concat_split sep s :
  String.concat (String sep EmptyString) (split sep s) = s.
Proof.
  induction s as [|c s IH]; simpl; [done|].
  destruct (Ascii.eqb c sep) eqn:E.
  - apply Ascii.eqb_eq in E. subst c.
    destruct (split sep s) as [|h t] eqn:Hs; [by apply split_nonempty in Hs|].
    simpl in *. by rewrite IH.
  - destruct (split sep s) as [|h t] eqn:Hs; [by apply split_nonempty in Hs|].
    destruct t as [|h' t]; simpl in *; by rewrite <- IH.
Qed.

End PyFacts.

(** ** Facts about string concatenation *)

Section StringFacts.

Lemma append_cons x (a b : string) : String x a +:+ b = String x (a +:+ b).
Proof. reflexivity. Qed.

Lemma append_nil_l (b : string) : EmptyString +:+ b = b.
Proof. reflexivity. Qed.

End StringFacts.

(** ** The dotted-path walker *)

Section Walker.
Import Py NYT.

Lemma extract_loop_resolve v paths :
  extract_loop v paths = Ok (Spec.resolve v paths).
Proof.
  revert v. induction paths as [|path paths IH]; intros v; simpl; [done|].
  destruct v; try done.
  unfold dict_contains, dict_getitem.
  destruct (dict_lookup path d) as [v'|]; simpl; [apply IH | done].
Qed.

(** C7. [extract_nested_field] never raises: for every article value and every
    dotted path it returns the value reached by walking the path's segments
    through nested mappings, and null from the first segment where the
    current value is not a mapping or lacks the key.  So ['headline.main']
    resolves to ["X"] in [{"headline": {"main": "X"}}] and to null in
    [{"headline": {}}] and in [{}]. *)
Theorem extract_nested_field_resolves :
  (forall self article field_path,
      extract_nested_field self article field_path
      = Ok (Spec.resolve article (split "." field_path)))
  /\ (forall self,
      extract_nested_field self
        (VDict [("headline", VDict [("main", VStr "X")])]) "headline.main" = Ok (VStr "X")
      /\ extract_nested_field self (VDict [("headline", VDict [])]) "headline.main" = Ok VNone
      /\ extract_nested_field self (VDict []) "headline.main" = Ok VNone).
Proof.
  split.
  - intros self article field_path. apply extract_loop_resolve.
  - intros self. repeat split; reflexivity.
Qed.

End Walker.

(** ** Field extraction *)

Section Extraction.
Import Py NYT Spec.

Lemma keyword_values_texts items :
  match keyword_texts items with
  | Some texts => bind (keyword_values items) as_strs = Ok texts
  | None => caught (bind (keyword_values items) as_strs)
  end.
Proof.
  induction items as [|kw items IH]; simpl; [done|].
  destruct kw as [| b | n | s | l | d]; simpl;
    try (right; by eexists).
  unfold dict_get.
  destruct (keyword_values items) as [vs|e] eqn:Hvs; simpl in *.
  - destruct (dict_lookup "value" d) as [[| b | n | s | l | d']|]; simpl;
      try (left; reflexivity).
    + destruct (keyword_texts items) as [texts|].
      * by rewrite IH.
      * destruct IH as [IH|[name IH]]; rewrite IH; [by left | right; by eexists].
    + destruct (keyword_texts items) as [texts|].
      * by rewrite IH.
      * destruct IH as [IH|[name IH]]; rewrite IH; [by left | right; by eexists].
  - destruct (keyword_texts items) as [texts|]; [discriminate|].
    destruct (dict_lookup "value" d) as [[| b | n | s | l | d']|]; exact IH.
Qed.

Lemma try_except_caught {A} (body handler : result A) :
  caught body -> try_except_attr_type body handler = handler.
Proof. intros [->|[name ->]]; reflexivity. Qed.

Lemma keyword_values_chars s :
  s <> EmptyString -> exists name, keyword_values (chars s) = Raise (AttributeError name).
Proof. destruct s; [done|]. intros _. simpl. by eexists. Qed.

(** The guarded comprehension and join of lines 155-158. *)
Lemma keywords_block items :
  try_except_attr_type
    (bind (keyword_values items) (fun vs =>
     bind (join "," vs) (fun joined => Ok (VStr joined))))
    (Ok (VStr ""))
  = Ok (VStr (match keyword_texts items with
              | Some texts => String.concat "," texts
              | None => ""
              end)).
Proof.
  pose proof (keyword_values_texts items) as H.
  unfold join. destruct (keyword_values items) as [vs|e]; simpl in H |- *.
  - destruct (keyword_texts items) as [texts|].
    + by rewrite H.
    + destruct H as [H|[name H]]; by rewrite H.
  - destruct (keyword_texts items) as [texts|]; [discriminate|].
    by destruct H as [[= ->]|[name [= ->]]].
Qed.

(** Lines 154-160 never raise and store the aggregated string. *)
Lemma extract_keywords_string article :
  extract_keywords article = Ok (VStr (keywords_string article)).
Proof.
  unfold extract_keywords, keywords_string, dict_contains, dict_getitem.
  destruct (dict_lookup "keywords" article) as [kws|]; [|done].
  destruct kws as [| b | n | s | l | d].
  - done.
  - by destruct b.
  - simpl. by destruct (n =? 0)%Z.
  - by destruct s as [|c s].
  - destruct l as [|kw l]; [done|]. exact (keywords_block (kw :: l)).
  - by destruct d as [|[k v] d].
Qed.

Lemma copy_fields_fold fields article processed :
  copy_fields fields article processed = Ok (fold_left (copy_step article) fields processed).
Proof.
  revert processed. induction fields as [|field fields IH]; intros processed; [done|].
  cbn [copy_fields fold_left].
  unfold copy_step at 2, copied_value, dict_contains, dict_getitem.
  destruct (in_list field skipped_fields); cbn [negb]; [apply IH|].
  destruct (dict_lookup field article) as [v|]; cbn [bind]; [|apply IH].
  destruct (is_dict_or_list v); apply IH.
Qed.

Lemma in_list_true x l : in_list x l = true <-> x ∈ l.
Proof.
  unfold in_list. rewrite existsb_exists, list_elem_of_In. split.
  - intros [y [Hy E]]. apply String.eqb_eq in E. by subst.
  - intros H. exists x. split; [done | apply String.eqb_refl].
Qed.

Lemma in_list_cons x y l : in_list x (y :: l) = String.eqb x y || in_list x l.
Proof. reflexivity. Qed.

Lemma lookup_copy_fold f fields article processed :
  dict_lookup f (fold_left (copy_step article) fields processed)
  = if in_list f fields && negb (in_list f skipped_fields)
    then Some (copied_value article f)
    else dict_lookup f processed.
Proof.
  revert processed. induction fields as [|x fields IH]; intros processed; [done|].
  cbn [fold_left]. rewrite IH, in_list_cons.
  destruct (in_list f fields && negb (in_list f skipped_fields)) eqn:E.
  - apply andb_prop in E as [-> ->]. by rewrite orb_true_r.
  - unfold copy_step. destruct (String.eqb f x) eqn:Efx.
    + apply String.eqb_eq in Efx. subst x.
      destruct (in_list f skipped_fields) eqn:Es; cbn [negb orb andb].
      * done.
      * by rewrite dict_lookup_setitem_eq.
    + cbn [orb]. rewrite E. destruct (in_list x skipped_fields); [done|].
      apply dict_lookup_setitem_ne. intros ->. by rewrite String.eqb_refl in Efx.
Qed.

Lemma dict_keys_setitem k v d : dict_keys (dict_setitem k v d) = add_key k (dict_keys d).
Proof.
  induction d as [|[k' v'] d IH]; simpl; [done|].
  destruct (String.eqb k k'); simpl; [done | by f_equal].
Qed.

Lemma keys_copy_fold fields article processed :
  dict_keys (fold_left (copy_step article) fields processed)
  = fold_left key_step fields (dict_keys processed).
Proof.
  revert processed. induction fields as [|x fields IH]; intros processed; simpl; [done|].
  rewrite IH. f_equal. unfold copy_step, key_step.
  destruct (in_list x skipped_fields); [done | apply dict_keys_setitem].
Qed.

(** Lines 144-170 never raise on an extractor that has its catalog, and store
    the six extracted entries followed by the copied catalog fields. *)
Lemma extract_fields_catalog self article :
  has_catalog self ->
  extract_fields self article = Ok (fold_left (copy_step article) catalog (extracted article)).
Proof.
  intros Hcat. unfold extract_fields, extract_nested_field, getattr.
  rewrite !extract_loop_resolve, extract_keywords_string, Hcat.
  cbv beta iota zeta delta [bind attr_iter]. rewrite copy_fields_fold.
  apply (f_equal (fun p => Ok (fold_left (copy_step article) catalog p))).
  reflexivity.
Qed.

(** Whatever [process_article] returns is the mapping lines 144-170 built. *)
Lemma process_article_returns_extracted self article out :
  process_article self article = Ok out -> extract_fields self article = Ok out.
Proof.
  unfold process_article. intros H.
  apply bind_ok in H as [processed [Hp H]]. rewrite Hp.
  apply bind_ok in H as [required [_ H]].
  apply bind_ok in H as [fields [_ H]].
  apply bind_ok in H as [u [_ H]]. exact H.
Qed.

End Extraction.

(** ** The constructor and the required-field check *)

Section Required.
Import Py NYT Spec.

Lemma init_fields api_key base_url fields :
  __init__ api_key base_url fields !! "fields" = Some (AList minimal_fields).
Proof. unfold __init__, setattr. by simplify_map_eq. Qed.

Lemma init_required_fields api_key base_url fields :
  __init__ api_key base_url fields !! "required_fields" = None.
Proof. unfold __init__, setattr. by simplify_map_eq. Qed.

Lemma init_has_catalog api_key base_url fields :
  has_catalog (__init__ api_key base_url fields).
Proof. unfold has_catalog, __init__, setattr. by simplify_map_eq. Qed.

Lemma setattr_has_catalog self name a :
  name <> "all_fields" -> has_catalog self -> has_catalog (setattr self name a).
Proof. unfold has_catalog, setattr. intros Hne H. by rewrite lookup_insert_ne. Qed.

(** The loop of lines 172-174 raises for the first listed field that the flat
    record holds as null, and passes when there is none. *)
Lemma check_required_cases fields article processed :
  (check_required fields article processed = Ok tt
   /\ forall f, f ∈ fields -> dict_lookup f processed <> Some VNone)
  \/ (exists pre f post,
        fields = pre ++ f :: post
        /\ (forall g, g ∈ pre -> dict_lookup g processed <> Some VNone)
        /\ dict_lookup f processed = Some VNone
        /\ check_required fields article processed
           = Raise (FieldMissingError f (dict_get article "_id" (VStr "unknown")))).
Proof.
  induction fields as [|field fields IH].
  - left. split; [done|]. intros f Hf. by apply elem_of_nil in Hf.
  - cbn [check_required]. unfold dict_contains, dict_getitem.
    destruct (dict_lookup field processed) as [v|] eqn:Hv; cbn [bind].
    + destruct v; cbn [is_none];
        try (destruct IH as [[Hok Hall]|[pre [f [post [-> [Hpre [Hf Hr]]]]]]];
             [ left; split; [done|]; intros g [->|Hg]%elem_of_cons; [congruence | by apply Hall]
             | right; exists (field :: pre), f, post; split; [done|];
               split; [intros g [->|Hg]%elem_of_cons; [congruence | by apply Hpre] | done] ]).
      right. exists [], field, fields. split; [done|].
      split; [intros g Hg; by apply elem_of_nil in Hg | done].
    + destruct IH as [[Hok Hall]|[pre [f [post [-> [Hpre [Hf Hr]]]]]]].
      * left. split; [done|]. intros g [->|Hg]%elem_of_cons; [congruence | by apply Hall].
      * right. exists (field :: pre), f, post. split; [done|].
        split; [intros g [->|Hg]%elem_of_cons; [congruence | by apply Hpre] | done].
Qed.

(** What [process_article] does on an extractor straight from the
    constructor: the attribute read of line 172 fails. *)
Lemma process_article_constructed api_key base_url fields article :
  process_article (__init__ api_key base_url fields) article
  = Raise (AttributeError "required_fields").
Proof.
  unfold process_article.
  rewrite (extract_fields_catalog _ _ (init_has_catalog api_key base_url fields)).
  cbn [bind]. unfold getattr. by rewrite init_required_fields.
Qed.

(** C1. The required-field check is never reached on a constructed extractor:
    built with ['headline'] as its required fields and given the empty record,
    whose headline resolves to null, [process_article] raises
    [AttributeError] where the claim has [FieldMissingError] for 'headline' and
    the identifier 'unknown'. *)
Theorem process_article_required_field_unchecked :
  let self := __init__ (AStr "key") ANone (AList ["headline"]) in
  let article : dict := [] in
  (exists processed,
      extract_fields self article = Ok processed
      /\ dict_lookup "headline" processed = Some VNone)
  /\ process_article self article = Raise (AttributeError "required_fields")
  /\ process_article self article <> Raise (FieldMissingError "headline" (VStr "unknown")).
Proof.
  cbv zeta. split; [|split].
  - eexists. split; [by vm_compute | reflexivity].
  - apply process_article_constructed.
  - by rewrite process_article_constructed.
Qed.

(** C2. The constructor does not keep the caller's list: whatever [fields] is,
    [self.fields] is the minimal list, and [required_fields], the attribute
    the check reads, is not assigned.  With ['abstract'] supplied the stored
    list is still ['_id', 'headline', 'pub_date']. *)
Theorem init_discards_fields :
  (forall api_key base_url fields,
      __init__ api_key base_url fields !! "fields" = Some (AList minimal_fields)
      /\ __init__ api_key base_url fields !! "required_fields" = None)
  /\ __init__ (AStr "key") ANone (AList ["abstract"]) !! "fields"
     = Some (AList ["_id"; "headline"; "pub_date"])
  /\ __init__ (AStr "key") ANone (AList ["abstract"]) !! "fields"
     <> Some (AList ["abstract"]).
Proof.
  split; [|split].
  - intros. split; [apply init_fields | apply init_required_fields].
  - apply init_fields.
  - rewrite init_fields. discriminate.
Qed.

End Required.

(** ** Batch processing *)

Section Batch.
Import Py NYT Spec.

Lemma omap_success_cons self a articles :
  omap (success self) (a :: articles)
  = match process_article self a with
    | Ok processed => processed :: omap (success self) articles
    | Raise _ => omap (success self) articles
    end.
Proof. cbn [omap list_omap]. unfold success at 1. by destruct (process_article self a). Qed.

Lemma omap_failure_cons self a articles :
  omap (failure self) (a :: articles)
  = match process_article self a with
    | Ok _ => omap (failure self) articles
    | Raise e => e :: omap (failure self) articles
    end.
Proof. cbn [omap list_omap]. unfold failure at 1. by destruct (process_article self a). Qed.

Lemma success_failure_length self articles :
  length (omap (success self) articles) + length (omap (failure self) articles)
  = length articles.
Proof.
  induction articles as [|a articles IH]; [done|].
  rewrite omap_success_cons, omap_failure_cons.
  destruct (process_article self a); cbn [length]; lia.
Qed.

(** The lenient loop never leaves by an exception; it appends the flat records
    of the articles that normalise, in order, and counts the others. *)
Lemma batch_loop_lenient self articles i st :
  exists st',
    batch_loop self false i articles st = (st', None)
    /\ processed_articles st' = processed_articles st ++ omap (success self) articles
    /\ errors st' = errors st + length (omap (failure self) articles).
Proof.
  revert i st. induction articles as [|a articles IH]; intros i st.
  - exists st. cbn. rewrite app_nil_r. split; [done|]. split; [done | lia].
  - cbn [batch_loop]. rewrite omap_success_cons, omap_failure_cons.
    destruct (process_article self a) as [processed|e].
    + destruct (IH (S i) (append_processed processed st)) as [st' [H1 [H2 H3]]].
      exists st'. split; [done|]. cbn in H2, H3.
      split; [by rewrite H2, <- app_assoc | done].
    + destruct e as [f ident|name|key|];
        [ destruct (IH (S i) (logging (ErrorSkipping (i + 1) (FieldMissingError f ident))
                                (count_error st))) as [st' [H1 [H2 H3]]]
        | destruct (IH (S i) (logging (ErrorProcessing (i + 1) (AttributeError name))
                                (count_error st))) as [st' [H1 [H2 H3]]]
        | destruct (IH (S i) (logging (ErrorProcessing (i + 1) (KeyError key))
                                (count_error st))) as [st' [H1 [H2 H3]]]
        | destruct (IH (S i) (logging (ErrorProcessing (i + 1) TypeError)
                                (count_error st))) as [st' [H1 [H2 H3]]] ];
        exists st'; (split; [exact H1|]); cbn in H2, H3;
        (split; [done | cbn [length]; lia]).
Qed.

(** The strict loop leaves with the exception of the first article that does
    not normalise. *)
Lemma batch_loop_strict self pre a post e i st :
  Forall (fun a => returns (process_article self a)) pre ->
  process_article self a = Raise e ->
  exists st', batch_loop self true i (pre ++ a :: post) st = (st', Some e).
Proof.
  intros Hpre Ha. revert i st.
  induction Hpre as [|x pre [processed Hx] _ IH]; intros i st.
  - cbn [app batch_loop]. rewrite Ha. destruct e; eexists; reflexivity.
  - cbn [app batch_loop]. rewrite Hx. apply IH.
Qed.

Lemma first_failure self articles :
  (exists a, a ∈ articles /\ raises (process_article self a)) ->
  exists pre a post e,
    articles = pre ++ a :: post
    /\ Forall (fun a => returns (process_article self a)) pre
    /\ process_article self a = Raise e.
Proof.
  induction articles as [|x articles IH]; intros [a [Hin Hr]].
  - by apply elem_of_nil in Hin.
  - destruct (process_article self x) as [processed|e] eqn:Hx.
    + apply elem_of_cons in Hin as [->|Hin].
      * destruct Hr as [e He]. congruence.
      * destruct IH as [pre [b [post [e [-> [Hpre Hb]]]]]]; [by exists a|].
        exists (x :: pre), b, post, e. split; [done|].
        split; [constructor; [by exists processed | done] | done].
    + exists [], x, articles, e. by split; [|split].
Qed.

(** C3. The constructor never assigns [required_fields], so on a constructed
    extractor [process_article] raises [AttributeError] for every article and
    returns no flat record; a non-empty batch in strict mode propagates that
    error at its first article, and in lenient mode every batch comes back as
    an empty list with each record counted as an error. *)
Theorem constructed_extractor_never_normalises :
  forall api_key base_url fields,
    let self := __init__ api_key base_url fields in
    self !! "required_fields" = None
    /\ (forall article,
          process_article self article = Raise (AttributeError "required_fields"))
    /\ (forall article articles,
          process_multiple_articles self (article :: articles) true
          = ([ErrorProcessing 1 (AttributeError "required_fields")],
             Raise (AttributeError "required_fields")))
    /\ (forall articles,
          exists log,
            process_multiple_articles self articles false
            = (log ++ [InfoProcessed 0 (length articles)], Ok [])).
Proof.
  intros api_key base_url fields self.
  assert (Hp : forall article,
             process_article self article = Raise (AttributeError "required_fields"))
    by (intros; apply process_article_constructed).
  split; [apply init_required_fields|]. split; [exact Hp|]. split.
  - intros article articles. unfold process_multiple_articles.
    cbn [batch_loop]. rewrite Hp. reflexivity.
  - intros articles. unfold process_multiple_articles.
    destruct (batch_loop_lenient self articles 0 initial_state) as [st' [H1 [H2 H3]]].
    rewrite H1. cbn [logging log processed_articles errors].
    assert (Hs : omap (success self) articles = []).
    { clear -Hp. induction articles as [|a articles IH]; [done|].
      by rewrite omap_success_cons, Hp. }
    pose proof (success_failure_length self articles) as Hlen.
    rewrite Hs in Hlen, H2. cbn in Hlen, H2, H3.
    exists (log st'). rewrite H2, H3, Hlen. reflexivity.
Qed.

(** C4. In lenient mode the call returns, for every extractor and every input
    sequence: the returned list holds the flat records of exactly the inputs
    that normalise, in input order; the error count it logs is the number of
    the others; the two add up to the input length.  The empty input gives the
    empty list and zero errors. *)
Theorem lenient_batch_accounting :
  forall self articles,
    let successes := omap (success self) articles in
    let failures := length (omap (failure self) articles) in
    (exists log,
        process_multiple_articles self articles false
        = (log ++ [InfoProcessed (length successes) failures], Ok successes))
    /\ length successes + failures = length articles
    /\ process_multiple_articles self [] false = ([InfoProcessed 0 0], Ok []).
Proof.
  intros self articles successes failures. split; [|split].
  - unfold process_multiple_articles.
    destruct (batch_loop_lenient self articles 0 initial_state) as [st' [H1 [H2 H3]]].
    rewrite H1. cbn [logging log processed_articles errors].
    cbn in H2, H3. exists (log st'). rewrite H2, H3. reflexivity.
  - apply success_failure_length.
  - reflexivity.
Qed.

(** C5. In strict mode, when some record of the input does not normalise, the
    call raises the exception of the first such record and returns no list,
    whatever the records before it gave. *)
Theorem strict_batch_aborts :
  forall self articles,
    (exists a, a ∈ articles /\ raises (process_article self a)) ->
    exists pre a post e log,
      articles = pre ++ a :: post
      /\ Forall (fun a => returns (process_article self a)) pre
      /\ process_article self a = Raise e
      /\ process_multiple_articles self articles true = (log, Raise e).
Proof.
  intros self articles H.
  destruct (first_failure self articles H) as [pre [a [post [e [-> [Hpre Ha]]]]]].
  destruct (batch_loop_strict self pre a post e 0 initial_state Hpre Ha) as [st' Hst].
  exists pre, a, post, e, (log st'). split; [done|]. split; [done|]. split; [done|].
  unfold process_multiple_articles. by rewrite Hst.
Qed.

End Batch.

(** ** The flat record *)

Section FlatRecord.
Import Py NYT Spec.

Lemma process_article_out self article processed :
  extract_fields self article = Ok processed ->
  forall out, process_article self article = Ok out -> out = processed.
Proof.
  intros Hp out Hout. apply process_article_returns_extracted in Hout. congruence.
Qed.

Lemma copied_fields_in_catalog field :
  field ∈ catalog -> field ∉ skipped_fields ->
  in_list field catalog && negb (in_list field skipped_fields) = true.
Proof.
  intros Hc Hs. apply andb_true_intro. split; [by apply in_list_true|].
  apply negb_true_iff. destruct (in_list field skipped_fields) eqn:E; [|done].
  by apply in_list_true in E.
Qed.

(** With the attribute set by hand the check works as documented: the record
    without headline data is refused, naming the field and the record. *)
Example process_article_examples :
  process_article Examples.extractor Examples.r2
  = Raise (FieldMissingError "headline" (VStr "nyt://article/2"))
  /\ process_article Examples.extractor []
     = Raise (FieldMissingError "headline" (VStr "unknown"))
  /\ returns (process_article Examples.extractor Examples.r1).
Proof. split; [|split]; [by vm_compute | by vm_compute | eexists; by vm_compute]. Qed.

Example extract_keywords_examples :
  extract_keywords [("keywords", VList [VDict [("value", VStr "a")]; VDict [("value", VStr "b")]])]
  = Ok (VStr "a,b")
  /\ extract_keywords [("keywords", VList [])] = Ok (VStr "")
  /\ extract_keywords [] = Ok (VStr "")
  /\ extract_keywords [("keywords", VList [VDict [("value", VStr "a")]; VStr "b"])]
     = Ok (VStr "")
  /\ extract_keywords [("keywords", VList [VDict [("value", VStr "a")]; VDict [("value", VInt 5)]])]
     = Ok (VStr "").
Proof. repeat split; reflexivity. Qed.

(** C6. On an extractor that has its catalog, lines 144-170 build for every
    raw record a mapping whose keys are the same fixed list of field names,
    whichever keys the record has, and a record [process_article] returns is
    that mapping. *)
Theorem flat_record_fields self article :
  has_catalog self ->
  exists processed,
    extract_fields self article = Ok processed
    /\ dict_keys processed = flat_fields
    /\ (forall out, process_article self article = Ok out ->
                    out = processed /\ dict_keys out = flat_fields).
Proof.
  intros Hcat. pose proof (extract_fields_catalog self article Hcat) as Hp.
  assert (Hk : dict_keys (fold_left (copy_step article) catalog (extracted article))
               = flat_fields) by (rewrite keys_copy_fold; reflexivity).
  eexists. split; [exact Hp|]. split; [exact Hk|].
  intros out Hout. apply (process_article_out _ _ _ Hp) in Hout. by subst.
Qed.

Lemma flat_record_fields_witness :
  has_catalog Examples.extractor
  /\ exists processed,
      extract_fields Examples.extractor Examples.r1 = Ok processed
      /\ dict_keys processed = flat_fields
      /\ (forall out, process_article Examples.extractor Examples.r1 = Ok out ->
                      out = processed /\ dict_keys out = flat_fields).
Proof.
  split; [reflexivity|].
  apply (flat_record_fields Examples.extractor Examples.r1). reflexivity.
Defined.

(** The three cases of the aggregated string. *)
Lemma keywords_string_cases article :
  (dict_lookup "keywords" article = None \/ dict_lookup "keywords" article = Some (VList []) ->
   keywords_string article = "")
  /\ (forall kws texts,
        dict_lookup "keywords" article = Some (VList kws) -> kws <> [] ->
        keyword_texts kws = Some texts ->
        keywords_string article = String.concat "," texts)
  /\ (forall kws,
        dict_lookup "keywords" article = Some (VList kws) ->
        keyword_texts kws = None ->
        keywords_string article = "").
Proof.
  unfold keywords_string. split; [|split].
  - by intros [->| ->].
  - intros kws texts -> Hne Ht. destruct kws as [|kw kws]; [done|]. by rewrite Ht.
  - intros kws -> Ht. destruct kws as [|kw kws]; [done|]. by rewrite Ht.
Qed.

(** C8, as amended. The ['keywords'] entry of the flat record is always a
    string and the record is never failed for it.  The string is the
    comma-separated ['value'] sub-fields (the empty string for a missing one)
    when the raw value is a non-empty sequence of mappings whose ['value']
    sub-fields, where present, are all strings; it is empty when the key is
    absent or the sequence is empty; it is empty when an element has another
    shape (not a mapping, or a sub-field that is not a string). *)
Theorem keywords_field self article :
  has_catalog self ->
  exists processed,
    extract_fields self article = Ok processed
    /\ dict_lookup "keywords" processed = Some (VStr (keywords_string article))
    /\ (forall out, process_article self article = Ok out -> out = processed)
    /\ (dict_lookup "keywords" article = None
        \/ dict_lookup "keywords" article = Some (VList []) ->
        dict_lookup "keywords" processed = Some (VStr ""))
    /\ (forall kws texts,
          dict_lookup "keywords" article = Some (VList kws) -> kws <> [] ->
          keyword_texts kws = Some texts ->
          dict_lookup "keywords" processed = Some (VStr (String.concat "," texts)))
    /\ (forall kws,
          dict_lookup "keywords" article = Some (VList kws) ->
          keyword_texts kws = None ->
          dict_lookup "keywords" processed = Some (VStr "")).
Proof.
  intros Hcat. pose proof (extract_fields_catalog self article Hcat) as Hp.
  destruct (keywords_string_cases article) as [Hb [Ha Hc]].
  assert (Hk : dict_lookup "keywords"
                 (fold_left (copy_step article) catalog (extracted article))
               = Some (VStr (keywords_string article)))
    by (rewrite lookup_copy_fold; reflexivity).
  eexists. split; [exact Hp|]. split; [exact Hk|].
  split; [by apply process_article_out|]. split; [|split].
  - intros H. by rewrite Hk, (Hb H).
  - intros kws texts H1 H2 H3. by rewrite Hk, (Ha kws texts H1 H2 H3).
  - intros kws H1 H2. by rewrite Hk, (Hc kws H1 H2).
Qed.

Lemma keywords_field_witness :
  has_catalog Examples.extractor
  /\ exists processed,
      extract_fields Examples.extractor Examples.r1 = Ok processed
      /\ dict_lookup "keywords" processed = Some (VStr "a,b").
Proof.
  split; [reflexivity|].
  destruct (keywords_field Examples.extractor Examples.r1) as [processed [Hp [Hk _]]];
    [reflexivity|].
  exists processed. split; [exact Hp | exact Hk].
Defined.

(** The claim C8 as first stated fails: for a non-empty sequence of mappings
    one of whose ['value'] sub-fields is the number 5, [process_article]
    returns a flat record whose ['keywords'] entry is the empty string, which
    is not the comma-separated sub-fields under any reading of the number as
    text. *)
Lemma keywords_join_counterexample :
  Forall (fun kw => is_dict kw = true) Terms.mixed_keywords
  /\ Terms.mixed_keywords <> []
  /\ dict_lookup "keywords" Terms.mixed_record = Some (VList Terms.mixed_keywords)
  /\ (exists processed,
        process_article Examples.extractor Terms.mixed_record = Ok processed
        /\ dict_lookup "keywords" processed = Some (VStr ""))
  /\ (forall text : value -> string,
        (forall s, text (VStr s) = s) ->
        forall processed,
          process_article Examples.extractor Terms.mixed_record = Ok processed ->
          dict_lookup "keywords" processed
          <> Some (VStr (Terms.joined_values text Terms.mixed_keywords))).
Proof.
  split; [by repeat constructor|]. split; [done|]. split; [reflexivity|].
  split.
  - eexists. split; [by vm_compute | reflexivity].
  - intros text Htext processed Hp.
    assert (Hk : dict_lookup "keywords" processed = Some (VStr "")).
    { vm_compute in Hp. injection Hp as <-. reflexivity. }
    assert (E : Terms.joined_values text Terms.mixed_keywords
                = String.concat "," [text (VStr "a"); text (VInt 5)]) by reflexivity.
    rewrite Hk, E, Htext.
    change (String.concat "," ["a"; text (VInt 5)]) with (String "a" ("," +:+ text (VInt 5))).
    discriminate.
Qed.

(** X18. For a catalog field other than headline, byline, multimedia and
    keywords, the flat record holds the text [json.dumps] gives for a raw
    value that is a mapping or a sequence, and null when the raw record lacks
    the field. *)
Theorem structured_field_json_text self article field :
  has_catalog self ->
  field ∈ catalog -> field ∉ skipped_fields ->
  exists processed,
    extract_fields self article = Ok processed
    /\ (forall v,
          dict_lookup field article = Some v -> is_dict_or_list v = true ->
          dict_lookup field processed = Some (VStr (Json.dumps v)))
    /\ (dict_lookup field article = None -> dict_lookup field processed = Some VNone)
    /\ (forall out, process_article self article = Ok out -> out = processed).
Proof.
  intros Hcat Hc Hs. pose proof (extract_fields_catalog self article Hcat) as Hp.
  eexists. split; [exact Hp|].
  pose proof (lookup_copy_fold field catalog article (extracted article)) as Hl.
  rewrite (copied_fields_in_catalog field Hc Hs) in Hl. unfold copied_value in Hl.
  split; [|split; [|by apply process_article_out]].
  - intros v Hv Hstruct. by rewrite Hv, Hstruct in Hl.
  - intros Hv. by rewrite Hv in Hl.
Qed.

Lemma structured_field_json_text_witness :
  has_catalog Examples.extractor
  /\ ("source" ∈ catalog) /\ ("source" ∉ skipped_fields)
  /\ exists processed,
      extract_fields Examples.extractor Examples.r1 = Ok processed
      /\ (forall v,
            dict_lookup "source" Examples.r1 = Some v -> is_dict_or_list v = true ->
            dict_lookup "source" processed = Some (VStr (Json.dumps v)))
      /\ (dict_lookup "source" Examples.r1 = None ->
          dict_lookup "source" processed = Some VNone)
      /\ (forall out, process_article Examples.extractor Examples.r1 = Ok out ->
                      out = processed).
Proof.
  assert (Hc : "source" ∈ catalog) by (apply in_list_true; reflexivity).
  assert (Hs : "source" ∉ skipped_fields)
    by (intros H; apply in_list_true in H; discriminate H).
  split; [reflexivity|]. split; [exact Hc|]. split; [exact Hs|].
  apply (structured_field_json_text Examples.extractor Examples.r1 "source");
    [reflexivity | exact Hc | exact Hs].
Defined.

(** C10. The walker goes through mappings only: when the raw ['multimedia']
    value is a sequence, whatever it holds, ['multimedia.default.url']
    resolves to null and the flat record's [image_url] is null. *)
Theorem image_url_of_sequence self article items :
  has_catalog self ->
  dict_lookup "multimedia" article = Some (VList items) ->
  extract_nested_field self (VDict article) "multimedia.default.url" = Ok VNone
  /\ exists processed,
      extract_fields self article = Ok processed
      /\ dict_lookup "image_url" processed = Some VNone
      /\ (forall out, process_article self article = Ok out -> out = processed).
Proof.
  intros Hcat Hm.
  assert (Hr : resolve (VDict article) ["multimedia"; "default"; "url"] = VNone)
    by (cbn [resolve]; by rewrite Hm).
  split.
  - unfold extract_nested_field. rewrite extract_loop_resolve.
    change (split "." "multimedia.default.url") with ["multimedia"; "default"; "url"].
    by rewrite Hr.
  - pose proof (extract_fields_catalog self article Hcat) as Hp.
    eexists. split; [exact Hp|]. split; [|by apply process_article_out].
    rewrite lookup_copy_fold.
    change (dict_lookup "image_url" (extracted article))
      with (Some (resolve (VDict article) ["multimedia"; "default"; "url"])).
    by rewrite Hr.
Qed.

Lemma image_url_of_sequence_witness :
  has_catalog Examples.extractor
  /\ dict_lookup "multimedia" Examples.r1
     = Some (VList [VDict [("url", VStr "images/1.jpg")]])
  /\ extract_nested_field Examples.extractor (VDict Examples.r1) "multimedia.default.url"
     = Ok VNone
  /\ exists processed,
      extract_fields Examples.extractor Examples.r1 = Ok processed
      /\ dict_lookup "image_url" processed = Some VNone
      /\ (forall out, process_article Examples.extractor Examples.r1 = Ok out ->
                      out = processed).
Proof.
  split; [reflexivity|]. split; [reflexivity|].
  apply (image_url_of_sequence Examples.extractor Examples.r1
           [VDict [("url", VStr "images/1.jpg")]]); reflexivity.
Defined.

(** The strict batch [r1, r2, r3] on the sample extractor: [r1] normalises,
    [r2] lacks a headline, and the call raises for it. *)
Lemma strict_batch_aborts_witness :
  (exists a, a ∈ [Examples.r1; Examples.r2; Examples.r3]
             /\ raises (process_article Examples.extractor a))
  /\ exists pre a post e log,
      [Examples.r1; Examples.r2; Examples.r3] = pre ++ a :: post
      /\ Forall (fun a => returns (process_article Examples.extractor a)) pre
      /\ process_article Examples.extractor a = Raise e
      /\ process_multiple_articles Examples.extractor
           [Examples.r1; Examples.r2; Examples.r3] true = (log, Raise e).
Proof.
  assert (H : exists a, a ∈ [Examples.r1; Examples.r2; Examples.r3]
                        /\ raises (process_article Examples.extractor a)).
  { exists Examples.r2. split; [do 2 constructor|].
    eexists. by vm_compute. }
  split; [exact H|].
  exact (strict_batch_aborts Examples.extractor
           [Examples.r1; Examples.r2; Examples.r3] H).
Defined.

End FlatRecord.

(** ** Further properties of the walker *)

Section WalkerLaws.
Import Py NYT Spec Terms.

Lemma split_dot_free sep s : has_char sep s = false -> split sep s = [s].
Proof.
  induction s as [|c s IH]; [done|]. cbn [has_char split].
  intros [Hc Hs]%orb_false_elim. rewrite Hc, (IH Hs). reflexivity.
Qed.

Lemma split_segments_dot_free sep s seg :
  In seg (split sep s) -> has_char sep seg = false.
Proof.
  revert seg. induction s as [|c s IH]; intros seg.
  - intros [<-|[]]. reflexivity.
  - cbn [split]. destruct (Ascii.eqb c sep) eqn:E.
    + intros [<-|H]; [reflexivity | by apply IH].
    + destruct (split sep s) as [|h t] eqn:Hs; [by apply split_nonempty in Hs|].
      intros [<-|H].
      * cbn [has_char]. rewrite E. apply IH. by left.
      * apply IH. by right.
Qed.

Lemma split_append sep p q :
  split sep (p +:+ String sep q) = split sep p ++ split sep q.
Proof.
  induction p as [|c p IH].
  - rewrite append_nil_l. cbn [split]. by rewrite Ascii.eqb_refl.
  - rewrite append_cons. cbn [split]. rewrite IH.
    destruct (Ascii.eqb c sep); [done|].
    destruct (split sep p) as [|h t] eqn:Hp; [by apply split_nonempty in Hp | done].
Qed.

Lemma resolve_none segments : segments <> [] -> resolve VNone segments = VNone.
Proof. by destruct segments. Qed.

Lemma resolve_app v l1 l2 :
  l2 <> [] -> resolve v (l1 ++ l2) = resolve (resolve v l1) l2.
Proof.
  intros Hne. revert v. induction l1 as [|seg l1 IH]; intros v; [done|].
  cbn [app resolve].
  destruct v; try (by rewrite resolve_none).
  destruct (dict_lookup seg d); [apply IH | by rewrite resolve_none].
Qed.

(** X1. On a mapping, a path without a dot is a plain lookup of that key,
    null when the key is absent. *)
Theorem extract_nested_field_top_level self d key :
  has_char "." key = false ->
  extract_nested_field self (VDict d) key = Ok (dict_get d key VNone).
Proof.
  intros H. unfold extract_nested_field. rewrite extract_loop_resolve, (split_dot_free _ _ H).
  cbn [resolve]. unfold dict_get. by destruct (dict_lookup key d).
Qed.

Lemma extract_nested_field_top_level_witness :
  has_char "." "web_url" = false
  /\ extract_nested_field Examples.extractor (VDict Examples.r1) "web_url"
     = Ok (dict_get Examples.r1 "web_url" VNone).
Proof.
  split; [reflexivity|].
  apply (extract_nested_field_top_level Examples.extractor Examples.r1 "web_url").
  reflexivity.
Defined.

(** X2. Paths compose: resolving [p.q] is resolving [q] in what [p] resolves
    to. *)
Theorem extract_nested_field_compose self article p q :
  extract_nested_field self article (p +:+ "." +:+ q)
  = bind (extract_nested_field self article p)
         (fun v => extract_nested_field self v q).
Proof.
  unfold extract_nested_field. rewrite !extract_loop_resolve. cbn [bind].
  rewrite extract_loop_resolve.
  change (p +:+ "." +:+ q) with (p +:+ String "." q).
  rewrite split_append, resolve_app; [done | apply split_nonempty].
Qed.

(** X3. A top-level key whose name contains a dot cannot be reached: asking
    for that name gives the same answer whatever the record holds under it. *)
Theorem extract_nested_field_dotted_key self d key v :
  has_char "." key = true ->
  extract_nested_field self (VDict (dict_setitem key v d)) key
  = extract_nested_field self (VDict d) key.
Proof.
  intros H. unfold extract_nested_field. rewrite !extract_loop_resolve. f_equal.
  destruct (split "." key) as [|seg rest] eqn:Hs; [by apply split_nonempty in Hs|].
  assert (Hseg : has_char "." seg = false).
  { apply (split_segments_dot_free "." key). rewrite Hs. by left. }
  cbn [resolve]. rewrite dict_lookup_setitem_ne; [done|].
  intros ->. congruence.
Qed.

Lemma extract_nested_field_dotted_key_witness :
  has_char "." "headline.main" = true
  /\ extract_nested_field Examples.extractor
       (VDict (dict_setitem "headline.main" (VStr "Y") Examples.r1)) "headline.main"
     = extract_nested_field Examples.extractor (VDict Examples.r1) "headline.main".
Proof.
  split; [reflexivity|].
  apply (extract_nested_field_dotted_key Examples.extractor Examples.r1
           "headline.main" (VStr "Y")).
  reflexivity.
Defined.

End WalkerLaws.

(** ** Further properties of the flat record and the required-field check *)

Section RecordLaws.
Import Py NYT Spec Terms.

Lemma dict_lookup_keys f (d : dict) v : dict_lookup f d = Some v -> In f (dict_keys d).
Proof.
  induction d as [|[k w] d IH]; [done|]. cbn [dict_lookup dict_keys List.map fst In].
  destruct (String.eqb f k) eqn:E.
  - apply String.eqb_eq in E. by left.
  - intros H. right. by apply IH.
Qed.

Lemma check_required_raise fields article processed e :
  check_required fields article processed = Raise e ->
  exists f,
    e = FieldMissingError f (dict_get article "_id" (VStr "unknown"))
    /\ f ∈ fields /\ dict_lookup f processed = Some VNone.
Proof.
  intros H.
  destruct (check_required_cases fields article processed)
    as [[Hok _]|[pre [f [post [-> [_ [Hf Hr]]]]]]]; [congruence|].
  exists f. rewrite Hr in H. injection H as <-.
  split; [done|]. split; [|done]. apply elem_of_app. right. by left.
Qed.

(** A [FieldMissingError] of [process_article] comes from the loop of lines
    172-174. *)
Lemma process_article_field_missing self article f ident :
  has_catalog self ->
  process_article self article = Raise (FieldMissingError f ident) ->
  exists processed,
    extract_fields self article = Ok processed
    /\ dict_lookup f processed = Some VNone
    /\ ident = dict_get article "_id" (VStr "unknown").
Proof.
  intros Hcat H. pose proof (extract_fields_catalog self article Hcat) as Hp.
  unfold process_article in H. rewrite Hp in H. cbn [bind] in H.
  eexists. split; [exact Hp|].
  unfold getattr in H. destruct (self !! "required_fields") as [a|]; [|discriminate H].
  cbn [bind] in H. destruct a as [|s|l]; cbn [attr_iter bind] in H; [discriminate H|..].
  - destruct (check_required (char_names s) article _) as [u|e] eqn:Hc; [discriminate H|].
    cbn [bind] in H. injection H as ->.
    apply check_required_raise in Hc as [g [[= <- <-] [_ Hg]]]. by split.
  - destruct (check_required l article _) as [u|e] eqn:Hc; [discriminate H|].
    cbn [bind] in H. injection H as ->.
    apply check_required_raise in Hc as [g [[= <- <-] [_ Hg]]]. by split.
Qed.

(** X4. When [required_fields] holds a list, [process_article] returns the
    flat record exactly when none of the listed fields is null in it;
    otherwise it raises [FieldMissingError] for the first listed field that is
    null, with the record's ['_id'], or 'unknown' when the record has none. *)
Theorem process_article_checks_required self article fields :
  has_catalog self ->
  self !! "required_fields" = Some (AList fields) ->
  exists processed,
    extract_fields self article = Ok processed
    /\ ((process_article self article = Ok processed
         /\ forall f, f ∈ fields -> dict_lookup f processed <> Some VNone)
        \/ (exists pre f post,
              fields = pre ++ f :: post
              /\ (forall g, g ∈ pre -> dict_lookup g processed <> Some VNone)
              /\ dict_lookup f processed = Some VNone
              /\ process_article self article
                 = Raise (FieldMissingError f (dict_get article "_id" (VStr "unknown"))))).
Proof.
  intros Hcat Hreq. pose proof (extract_fields_catalog self article Hcat) as Hp.
  eexists. split; [exact Hp|].
  unfold process_article, getattr. rewrite Hp, Hreq. cbn [bind attr_iter].
  destruct (check_required_cases fields article
              (fold_left (copy_step article) catalog (extracted article)))
    as [[Hok Hall]|[pre [f [post [-> [Hpre [Hf Hr]]]]]]].
  - left. rewrite Hok. by split.
  - right. exists pre, f, post. rewrite Hr. by repeat split.
Qed.

Lemma process_article_checks_required_witness :
  has_catalog Examples.extractor
  /\ Examples.extractor !! "required_fields" = Some (AList ["headline"])
  /\ exists processed,
      extract_fields Examples.extractor Examples.r2 = Ok processed
      /\ ((process_article Examples.extractor Examples.r2 = Ok processed
           /\ forall f, f ∈ ["headline"] -> dict_lookup f processed <> Some VNone)
          \/ (exists pre f post,
                ["headline"] = pre ++ f :: post
                /\ (forall g, g ∈ pre -> dict_lookup g processed <> Some VNone)
                /\ dict_lookup f processed = Some VNone
                /\ process_article Examples.extractor Examples.r2
                   = Raise (FieldMissingError f
                              (dict_get Examples.r2 "_id" (VStr "unknown"))))).
Proof.
  split; [reflexivity|]. split; [reflexivity|].
  apply (process_article_checks_required Examples.extractor Examples.r2 ["headline"]);
    reflexivity.
Defined.

(** X5. A [FieldMissingError] names only a field of the flat record that is
    null there: never ['keywords'], never a name outside the flat record's
    fields such as the catalog's ['multimedia'] or a misspelt one; and its
    identifier is the record's ['_id'], or 'unknown'. *)
Theorem field_missing_error_sound self article f ident :
  has_catalog self ->
  process_article self article = Raise (FieldMissingError f ident) ->
  (exists processed,
      extract_fields self article = Ok processed
      /\ dict_lookup f processed = Some VNone)
  /\ In f flat_fields /\ f <> "keywords" /\ f <> "multimedia"
  /\ ident = dict_get article "_id" (VStr "unknown").
Proof.
  intros Hcat H.
  destruct (process_article_field_missing self article f ident Hcat H)
    as [processed [Hp [Hf ->]]].
  split; [by exists processed|].
  assert (Hpe : processed = fold_left (copy_step article) catalog (extracted article))
    by (pose proof (extract_fields_catalog self article Hcat); congruence).
  rewrite Hpe in Hf. clear Hp Hpe.
  assert (Hin : In f flat_fields).
  { pose proof (dict_lookup_keys _ _ _ Hf) as Hk. by rewrite keys_copy_fold in Hk. }
  split; [exact Hin|]. split; [|split; [|done]].
  - intros ->. rewrite lookup_copy_fold in Hf. discriminate Hf.
  - intros ->. cbn in Hin. intuition discriminate.
Qed.

Lemma field_missing_error_sound_witness :
  has_catalog Examples.extractor
  /\ process_article Examples.extractor Examples.r2
     = Raise (FieldMissingError "headline" (VStr "nyt://article/2"))
  /\ (exists processed,
        extract_fields Examples.extractor Examples.r2 = Ok processed
        /\ dict_lookup "headline" processed = Some VNone)
  /\ In "headline" flat_fields /\ "headline" <> "keywords" /\ "headline" <> "multimedia"
  /\ VStr "nyt://article/2" = dict_get Examples.r2 "_id" (VStr "unknown").
Proof.
  split; [reflexivity|]. split; [reflexivity|].
  apply (field_missing_error_sound Examples.extractor Examples.r2 "headline"
           (VStr "nyt://article/2")); reflexivity.
Defined.

(** X6. A copied catalog field is never stored as a mapping or a sequence,
    and a raw value that is neither is stored unchanged. *)
Theorem copied_field_is_scalar self article field :
  has_catalog self ->
  field ∈ catalog -> field ∉ skipped_fields ->
  exists processed v,
    extract_fields self article = Ok processed
    /\ dict_lookup field processed = Some v
    /\ is_dict_or_list v = false
    /\ (forall raw, dict_lookup field article = Some raw ->
                    is_dict_or_list raw = false -> v = raw).
Proof.
  intros Hcat Hc Hs. pose proof (extract_fields_catalog self article Hcat) as Hp.
  pose proof (lookup_copy_fold field catalog article (extracted article)) as Hl.
  rewrite (copied_fields_in_catalog field Hc Hs) in Hl.
  eexists _, _. split; [exact Hp|]. split; [exact Hl|].
  unfold copied_value. destruct (dict_lookup field article) as [raw|]; [|split; done].
  destruct (is_dict_or_list raw) eqn:E; split; try done.
  - intros raw' [= <-] E'. congruence.
  - intros raw' [= <-] _. done.
Qed.

Lemma copied_field_is_scalar_witness :
  has_catalog Examples.extractor
  /\ ("word_count" ∈ catalog) /\ ("word_count" ∉ skipped_fields)
  /\ exists processed v,
      extract_fields Examples.extractor Examples.r1 = Ok processed
      /\ dict_lookup "word_count" processed = Some v
      /\ is_dict_or_list v = false
      /\ (forall raw, dict_lookup "word_count" Examples.r1 = Some raw ->
                      is_dict_or_list raw = false -> v = raw).
Proof.
  assert (Hc : "word_count" ∈ catalog) by (apply in_list_true; reflexivity).
  assert (Hs : "word_count" ∉ skipped_fields)
    by (intros H; apply in_list_true in H; discriminate H).
  split; [reflexivity|]. split; [exact Hc|]. split; [exact Hs|].
  apply (copied_field_is_scalar Examples.extractor Examples.r1 "word_count");
    [reflexivity | exact Hc | exact Hs].
Defined.

(** X7. The five entries filled from dotted paths hold what the walker
    returns for their paths, as found: they are not serialised, and the
    catalog loop does not overwrite them. *)
Theorem path_entries self article :
  has_catalog self ->
  exists processed,
    extract_fields self article = Ok processed
    /\ Ok (dict_get processed "headline" VNone)
       = extract_nested_field self (VDict article) "headline.main"
    /\ Ok (dict_get processed "headline_kicker" VNone)
       = extract_nested_field self (VDict article) "headline.kicker"
    /\ Ok (dict_get processed "headline_print" VNone)
       = extract_nested_field self (VDict article) "headline.print_headline"
    /\ Ok (dict_get processed "byline" VNone)
       = extract_nested_field self (VDict article) "byline.original"
    /\ Ok (dict_get processed "image_url" VNone)
       = extract_nested_field self (VDict article) "multimedia.default.url".
Proof.
  intros Hcat. pose proof (extract_fields_catalog self article Hcat) as Hp.
  eexists. split; [exact Hp|].
  unfold dict_get, extract_nested_field. rewrite !lookup_copy_fold, !extract_loop_resolve.
  repeat split; reflexivity.
Qed.

Lemma path_entries_witness :
  has_catalog Examples.extractor
  /\ exists processed,
      extract_fields Examples.extractor Examples.r1 = Ok processed
      /\ dict_get processed "headline" VNone = VStr "X".
Proof.
  split; [reflexivity|].
  destruct (path_entries Examples.extractor Examples.r1) as [processed [Hp [Hh _]]];
    [reflexivity|].
  exists processed. split; [exact Hp|]. by injection Hh.
Defined.

Lemma fold_left_ext_in {A B} (g h : A -> B -> A) (l : list B) :
  (forall a b, In b l -> g a b = h a b) ->
  forall a, fold_left g l a = fold_left h l a.
Proof.
  induction l as [|b l IH]; intros H a; [done|]. cbn [fold_left].
  rewrite (H a b) by by left. apply IH. intros a' b' Hb'. apply H. by right.
Qed.

Lemma check_required_same_id fields article article' processed :
  dict_get article' "_id" (VStr "unknown") = dict_get article "_id" (VStr "unknown") ->
  check_required fields article' processed = check_required fields article processed.
Proof.
  intros Hid. induction fields as [|f fields IH]; [done|].
  cbn [check_required]. by rewrite Hid, IH.
Qed.

(** X8. Raw keys outside the catalog have no influence: setting such a key
    to any value changes neither the flat record nor the outcome of
    [process_article]. *)
Theorem process_article_ignores_other_keys self article key v :
  has_catalog self ->
  key ∉ catalog ->
  extract_fields self (dict_setitem key v article) = extract_fields self article
  /\ process_article self (dict_setitem key v article) = process_article self article.
Proof.
  intros Hcat Hkey.
  assert (Hl : forall f, In f catalog ->
                         dict_lookup f (dict_setitem key v article) = dict_lookup f article).
  { intros f Hf. apply dict_lookup_setitem_ne. intros ->. by apply Hkey, list_elem_of_In. }
  assert (He : extract_fields self (dict_setitem key v article) = extract_fields self article).
  { rewrite !(extract_fields_catalog _ _ Hcat). f_equal.
    assert (Hx : extracted (dict_setitem key v article) = extracted article).
    { unfold extracted, keywords_string. cbn [resolve].
      rewrite !Hl by (cbn; tauto). reflexivity. }
    rewrite Hx. apply fold_left_ext_in. intros p f Hf.
    unfold copy_step, copied_value. by rewrite (Hl f Hf). }
  split; [exact He|].
  unfold process_article. rewrite He.
  destruct (extract_fields self article) as [processed|e]; [|done]. cbn [bind].
  destruct (getattr self "required_fields") as [a|e]; [|done]. cbn [bind].
  destruct (attr_iter a) as [fields|e]; [|done]. cbn [bind].
  rewrite (check_required_same_id fields article); [done|].
  unfold dict_get. rewrite Hl by (cbn; tauto). reflexivity.
Qed.

Lemma process_article_ignores_other_keys_witness :
  has_catalog Examples.extractor
  /\ ("lead_paragraph" ∉ catalog)
  /\ extract_fields Examples.extractor
       (dict_setitem "lead_paragraph" (VStr "...") Examples.r1)
     = extract_fields Examples.extractor Examples.r1
  /\ process_article Examples.extractor
       (dict_setitem "lead_paragraph" (VStr "...") Examples.r1)
     = process_article Examples.extractor Examples.r1.
Proof.
  assert (Hk : "lead_paragraph" ∉ catalog)
    by (intros H; apply in_list_true in H; discriminate H).
  split; [reflexivity|]. split; [exact Hk|].
  apply (process_article_ignores_other_keys Examples.extractor Examples.r1
           "lead_paragraph" (VStr "...")); [reflexivity | exact Hk].
Defined.

End RecordLaws.

(** ** Further properties of batch processing *)

Section BatchLaws.
Import Py NYT Spec Terms.

Lemma batch_loop_all_ok self strict_mode articles :
  Forall (fun a => returns (process_article self a)) articles ->
  forall i st,
    batch_loop self strict_mode i articles st
    = ({| processed_articles := processed_articles st ++ omap (success self) articles;
          errors := errors st; log := log st |}, None)
    /\ length (omap (success self) articles) = length articles.
Proof.
  induction 1 as [|a articles [processed Ha] _ IH]; intros i st.
  - cbn. rewrite app_nil_r. by destruct st.
  - cbn [batch_loop]. rewrite omap_success_cons, Ha.
    destruct (IH (S i) (append_processed processed st)) as [-> Hlen].
    cbn [append_processed processed_articles errors log length].
    rewrite <- app_assoc. split; [done | by rewrite Hlen].
Qed.

(** X9. When every record of the input normalises, strict mode returns what
    lenient mode returns: all the flat records, in order, with a summary line
    counting no error and nothing else logged. *)
Theorem strict_batch_all_normalise self articles :
  Forall (fun a => returns (process_article self a)) articles ->
  process_multiple_articles self articles true
  = ([InfoProcessed (length articles) 0], Ok (omap (success self) articles))
  /\ process_multiple_articles self articles false
     = process_multiple_articles self articles true
  /\ length (omap (success self) articles) = length articles.
Proof.
  intros H. unfold process_multiple_articles.
  destruct (batch_loop_all_ok self true articles H 0 initial_state) as [-> Hlen].
  destruct (batch_loop_all_ok self false articles H 0 initial_state) as [-> _].
  cbn. by rewrite Hlen.
Qed.

Lemma strict_batch_all_normalise_witness :
  Forall (fun a => returns (process_article Examples.extractor a))
    [Examples.r1; Examples.r3]
  /\ process_multiple_articles Examples.extractor [Examples.r1; Examples.r3] true
     = ([InfoProcessed 2 0],
        Ok (omap (success Examples.extractor) [Examples.r1; Examples.r3])).
Proof.
  assert (H : Forall (fun a => returns (process_article Examples.extractor a))
                [Examples.r1; Examples.r3]).
  { repeat constructor; eexists; by vm_compute. }
  split; [exact H|].
  exact (proj1 (strict_batch_all_normalise Examples.extractor
                  [Examples.r1; Examples.r3] H)).
Defined.

Lemma batch_loop_lenient_log self articles :
  forall i st,
    log (fst (batch_loop self false i articles st))
    = log st
      ++ omap id (imap (fun j a => log_entry (i + j + 1) (process_article self a)) articles).
Proof.
  induction articles as [|a articles IH]; intros i st.
  - cbn. by rewrite app_nil_r.
  - cbn [batch_loop imap omap list_omap]. rewrite Nat.add_0_r.
    assert (Hext : imap ((fun j a0 => log_entry (i + j + 1) (process_article self a0)) ∘ S)
                     articles
                   = imap (fun j a0 => log_entry (S i + j + 1) (process_article self a0))
                       articles).
    { apply imap_ext. intros j x _. cbn. f_equal. lia. }
    rewrite Hext.
    destruct (process_article self a) as [processed|e]; cbn [log_entry id].
    + rewrite IH. reflexivity.
    + destruct e; cbn [log_entry id]; rewrite IH; cbn [logging count_error log];
        by rewrite <- app_assoc.
Qed.

(** X10. The log of a lenient run is one line per record that does not
    normalise, in input order and numbered from 1 by the record's position
    (a skip line for [FieldMissingError], an error line for anything else),
    followed by the summary line. *)
Theorem lenient_batch_log self articles :
  fst (process_multiple_articles self articles false)
  = failure_lines self articles
    ++ [InfoProcessed (length (omap (success self) articles))
          (length (omap (failure self) articles))].
Proof.
  unfold process_multiple_articles, failure_lines.
  pose proof (batch_loop_lenient_log self articles 0 initial_state) as Hlog.
  destruct (batch_loop_lenient self articles 0 initial_state) as [st' [H1 [H2 H3]]].
  rewrite H1 in Hlog |- *. cbn [fst snd logging log processed_articles errors] in *.
  rewrite Hlog, H2, H3. reflexivity.
Qed.

Lemma batch_loop_strict_log self pre a post e :
  Forall (fun a => returns (process_article self a)) pre ->
  process_article self a = Raise e ->
  forall i st,
    exists st',
      batch_loop self true i (pre ++ a :: post) st = (st', Some e)
      /\ log st' = log st ++ abort_log (i + length pre + 1) e.
Proof.
  intros Hpre Ha. induction Hpre as [|x pre [processed Hx] _ IH]; intros i st.
  - cbn [app batch_loop length]. rewrite Ha, Nat.add_0_r.
    destruct e; eexists; (split; [reflexivity|]); cbn; by rewrite ?app_nil_r.
  - cbn [app batch_loop length]. rewrite Hx.
    destruct (IH (S i) (append_processed processed st)) as [st' [H1 H2]].
    exists st'. split; [exact H1|]. rewrite H2. cbn [append_processed log].
    do 2 f_equal. lia.
Qed.

(** X11. A strict run that aborts leaves no summary line.  Aborting on a
    [FieldMissingError] it has logged nothing at all; aborting on any other
    exception it has logged one error line, numbered by the position of the
    failing record. *)
Theorem strict_batch_abort_log self pre a post e :
  Forall (fun a => returns (process_article self a)) pre ->
  process_article self a = Raise e ->
  process_multiple_articles self (pre ++ a :: post) true
  = (abort_log (length pre + 1) e, Raise e).
Proof.
  intros Hpre Ha. unfold process_multiple_articles.
  destruct (batch_loop_strict_log self pre a post e Hpre Ha 0 initial_state)
    as [st' [-> Hlog]].
  by rewrite Hlog.
Qed.

Lemma strict_batch_abort_log_witness :
  Forall (fun a => returns (process_article Examples.extractor a)) [Examples.r1]
  /\ process_article Examples.extractor Examples.r2
     = Raise (FieldMissingError "headline" (VStr "nyt://article/2"))
  /\ process_multiple_articles Examples.extractor
       ([Examples.r1] ++ Examples.r2 :: [Examples.r3]) true
     = ([], Raise (FieldMissingError "headline" (VStr "nyt://article/2"))).
Proof.
  assert (H : Forall (fun a => returns (process_article Examples.extractor a))
                [Examples.r1]).
  { repeat constructor; eexists; by vm_compute. }
  split; [exact H|]. split; [reflexivity|].
  exact (strict_batch_abort_log Examples.extractor [Examples.r1] Examples.r2
           [Examples.r3] _ H eq_refl).
Defined.

(** X12. Lenient processing distributes over concatenation: the records
    returned for [xs ++ ys] are those returned for [xs] followed by those
    returned for [ys]. *)
Theorem lenient_batch_concat self xs ys :
  exists cx cy,
    snd (process_multiple_articles self xs false) = Ok cx
    /\ snd (process_multiple_articles self ys false) = Ok cy
    /\ snd (process_multiple_articles self (xs ++ ys) false) = Ok (cx ++ cy).
Proof.
  exists (omap (success self) xs), (omap (success self) ys).
  unfold process_multiple_articles.
  destruct (batch_loop_lenient self xs 0 initial_state) as [s1 [-> [H1 _]]].
  destruct (batch_loop_lenient self ys 0 initial_state) as [s2 [-> [H2 _]]].
  destruct (batch_loop_lenient self (xs ++ ys) 0 initial_state) as [s3 [-> [H3 _]]].
  cbn in *. rewrite H1, H2, H3. by rewrite omap_app.
Qed.

End BatchLaws.

(** ** Properties of retrieval and export *)

Section Retrieval.
Import Py NYT Spec Terms.

(** X13. [search_articles] sends no request and returns the empty list, for
    every collaborator, extractor and argument: evaluating
    [range(page, pages_needed)] reads the local [page] before the loop has
    given it a value, and the handler turns that into a printed message and
    an empty result.  The only line logged is the first one. *)
Theorem search_articles_returns_nothing http self query begin_date end_date results start_page :
  Search.search_articles http self query begin_date end_date results start_page
  = ([Search.InfoFetching results (Search.pages_needed results);
      Search.PrintError (Search.UnboundLocalError "page")], [])
  /\ Forall (fun ev => is_request ev = false)
       (fst (Search.search_articles http self query begin_date end_date results start_page)).
Proof. split; [reflexivity | by repeat constructor]. Qed.

(** X14. The page count [search_articles] announces is the number of
    ten-result pages that cover [results], capped at 100: it never exceeds
    100, covers the request exactly up to 1000 results, and is not positive
    when no result is asked for. *)
Theorem pages_needed_bounds results :
  let p := Search.pages_needed results in
  (p <= 100)%Z
  /\ ((1 <= results <= 1000)%Z -> (10 * (p - 1) < results <= 10 * p)%Z)
  /\ ((1000 <= results)%Z -> p = 100%Z)
  /\ ((results <= 0)%Z -> (p <= 0)%Z).
Proof.
  cbv zeta. unfold Search.pages_needed.
  pose proof (Z.div_mod (results + 9) 10 ltac:(lia)) as Hd.
  pose proof (Z.mod_pos_bound (results + 9) 10 ltac:(lia)) as Hm.
  repeat split; lia.
Qed.

(** X15. Saving after searching writes no CSV file: whatever the
    collaborators do, the records obtained from a search clean to the empty
    list in lenient mode, and [save_to_csv] then returns having changed the
    disk by its one warning line in the log, without running the CSV
    writer. *)
Theorem search_then_save_writes_no_csv
    (disk : Type) (write_log : Csv.event -> disk -> disk)
    (to_csv : list dict -> string -> disk -> disk * Search.outcome unit)
    http self query begin_date end_date results start_page filename (d : disk) :
  forall records : list dict,
    List.map VDict records
    = snd (Search.search_articles http self query begin_date end_date results start_page) ->
    exists cleaned,
      snd (process_multiple_articles self records false) = Ok cleaned
      /\ Csv.save_to_csv disk write_log to_csv self cleaned filename d
         = (write_log Csv.WarningNoArticles d, Search.Done tt).
Proof.
  intros records H. cbn in H. destruct records; [|discriminate H].
  exists []. split; reflexivity.
Qed.

(** With a disk that records the log lines and the files written, in order. *)
Lemma search_then_save_writes_no_csv_witness :
  List.map VDict []
  = snd (Search.search_articles (fun _ _ => Search.Failed (Search.RequestError 500))
           Examples.extractor (VStr "immigration") (VStr "18510101") (VStr "20250501")
           1000 0)
  /\ exists cleaned,
      snd (process_multiple_articles Examples.extractor [] false) = Ok cleaned
      /\ Csv.save_to_csv (list (Csv.event + string))
           (fun e d => d ++ [inl e])
           (fun _ filename d => (d ++ [inr filename], Search.Done tt))
           Examples.extractor cleaned "historical_immigration_articles.csv" []
         = ([inl Csv.WarningNoArticles], Search.Done tt).
Proof.
  split; [reflexivity|].
  exact (search_then_save_writes_no_csv (list (Csv.event + string))
           (fun e d => d ++ [inl e])
           (fun _ filename d => (d ++ [inr filename], Search.Done tt))
           (fun _ _ => Search.Failed (Search.RequestError 500))
           Examples.extractor (VStr "immigration") (VStr "18510101") (VStr "20250501")
           1000 0 "historical_immigration_articles.csv" [] [] eq_refl).
Defined.

End Retrieval.

(** ** The minimal required fields and the order of raw keys *)

Section MinimalFields.
Import Py NYT Spec Terms.

Lemma copied_value_not_none article field :
  copied_value article field <> VNone
  <-> exists v, dict_lookup field article = Some v /\ v <> VNone.
Proof.
  unfold copied_value. destruct (dict_lookup field article) as [v|].
  - destruct v; cbn [is_dict_or_list];
      (split;
       [ intros H;
         first [ exfalso; by apply H | eexists; split; [reflexivity | discriminate] ]
       | intros [w [[= <-] Hw]]; first [ discriminate | done ] ]).
  - split; [done | by intros [v [? _]]].
Qed.

(** X16. With the minimal list ['_id', 'headline', 'pub_date'] as required
    fields, a record normalises exactly when it has a non-null ['_id'], a
    non-null [headline.main] and a non-null ['pub_date']. *)
Theorem minimal_fields_accept self article :
  has_catalog self ->
  self !! "required_fields" = Some (AList minimal_fields) ->
  returns (process_article self article)
  <-> ((exists v, dict_lookup "_id" article = Some v /\ v <> VNone)
       /\ resolve (VDict article) ["headline"; "main"] <> VNone
       /\ (exists v, dict_lookup "pub_date" article = Some v /\ v <> VNone)).
Proof.
  intros Hcat Hreq. pose proof (extract_fields_catalog self article Hcat) as Hp.
  set (processed := fold_left (copy_step article) catalog (extracted article)) in *.
  assert (Hid : dict_lookup "_id" processed = Some (copied_value article "_id"))
    by (unfold processed; by rewrite lookup_copy_fold).
  assert (Hpd : dict_lookup "pub_date" processed = Some (copied_value article "pub_date"))
    by (unfold processed; by rewrite lookup_copy_fold).
  assert (Hhl : dict_lookup "headline" processed
                = Some (resolve (VDict article) ["headline"; "main"]))
    by (unfold processed; by rewrite lookup_copy_fold).
  rewrite <- !copied_value_not_none.
  unfold process_article, getattr. rewrite Hp, Hreq. cbn [bind attr_iter].
  destruct (check_required_cases minimal_fields article processed)
    as [[Hok Hall]|[pre [f [post [Hsplit [_ [Hf Hr]]]]]]].
  - rewrite Hok. cbn [bind]. split; [intros _ | intros _; by eexists].
    split; [|split].
    + intros E. apply (Hall "_id"); [by repeat constructor | by rewrite Hid, E].
    + intros E. apply (Hall "headline"); [by repeat constructor | by rewrite Hhl, E].
    + intros E. apply (Hall "pub_date"); [by repeat constructor | by rewrite Hpd, E].
  - rewrite Hr. cbn [bind]. split; [intros [p Hret]; discriminate Hret|].
    intros [H1 [H2 H3]]. exfalso.
    assert (Hin : In f minimal_fields).
    { rewrite Hsplit. apply List.in_or_app. right. by left. }
    destruct Hin as [<-|[<-|[<-|[]]]].
    + rewrite Hid in Hf. by injection Hf.
    + rewrite Hhl in Hf. by injection Hf.
    + rewrite Hpd in Hf. by injection Hf.
Qed.

Lemma minimal_fields_accept_witness :
  has_catalog (setattr (__init__ (AStr "key") ANone ANone) "required_fields"
                 (AList minimal_fields))
  /\ setattr (__init__ (AStr "key") ANone ANone) "required_fields" (AList minimal_fields)
     !! "required_fields" = Some (AList minimal_fields)
  /\ (returns (process_article
                 (setattr (__init__ (AStr "key") ANone ANone) "required_fields"
                    (AList minimal_fields)) Examples.r3)
      <-> ((exists v, dict_lookup "_id" Examples.r3 = Some v /\ v <> VNone)
           /\ resolve (VDict Examples.r3) ["headline"; "main"] <> VNone
           /\ (exists v, dict_lookup "pub_date" Examples.r3 = Some v /\ v <> VNone))).
Proof.
  split; [reflexivity|]. split; [reflexivity|].
  apply (minimal_fields_accept
           (setattr (__init__ (AStr "key") ANone ANone) "required_fields"
              (AList minimal_fields)) Examples.r3); reflexivity.
Defined.



End MinimalFields.
